(** * Azure DevOps MCP server: dispatch, validation and error translation

    A shallow embedding of the TypeScript sources of the Azure DevOps
    adapter ([operations/*.ts] and the server's [index.ts]).  JavaScript
    values are an inductive type, the asynchronous handlers are computations
    in a small monad that threads the log of HTTP exchanges and may throw,
    and the remote platform is an oracle answering each request from the
    history of earlier exchanges. *)

From Stdlib Require Import String Ascii List ZArith Bool Lia DecimalString.
Import ListNotations.
Open Scope list_scope.
Open Scope string_scope.
Set Warnings "-register-all".

(* ================================================================== *)
(** ** JavaScript values and the string primitives the sources use *)
(* ================================================================== *)

Module Js.

(** [s.startsWith(p)] *)
Definition startsWith (s p : string) : bool := String.prefix p s.

(** [s.includes(sub)] *)
Fixpoint includes (s sub : string) : bool :=
  startsWith s sub ||
  match s with
  | EmptyString => false
  | String _ t => includes t sub
  end.

Fixpoint drop (n : nat) (s : string) : string :=
  match n, s with
  | O, _ => s
  | S n', String _ t => drop n' t
  | S _, EmptyString => EmptyString
  end.

(** [s.replace(pat, rep)] with a string pattern: the first occurrence only. *)
Fixpoint replace (s pat rep : string) : string :=
  if startsWith s pat then rep ++ drop (String.length pat) s
  else match s with
       | EmptyString => EmptyString
       | String c t => String c (replace t pat rep)
       end.

(** Numbers.  The sources only count, index and paginate, so numbers are the
    integers (exact in a double on the safe range) together with the two
    values a division by zero produces. *)
Inductive number : Type :=
| Int (z : Z)
| Infinity
| NaN.

Inductive value : Type :=
| VUndefined
| VNull
| VBool (b : bool)
| VNum (n : number)
| VStr (s : string)
| VArr (items : list value)
| VObj (fields : list (string * value)).

Definition num (z : Z) : value := VNum (Int z).

(** ToBoolean: what [!x], [x || y] and [x && y] test. *)
Definition truthy (v : value) : bool :=
  match v with
  | VUndefined | VNull => false
  | VBool b => b
  | VNum (Int z) => negb (z =? 0)%Z
  | VNum Infinity => true
  | VNum NaN => false
  | VStr s => negb (s =? "")
  | VArr _ | VObj _ => true
  end.

Definition nullish (v : value) : bool :=
  match v with
  | VUndefined | VNull => true
  | _ => false
  end.

(** [a || b] and [a ?? b] on values. *)
Definition or_else (a b : value) : value := if truthy a then a else b.
Definition coalesce (a b : value) : value := if nullish a then b else a.

Definition number_to_string (n : number) : string :=
  match n with
  | Int z => NilZero.string_of_int (Z.to_int z)
  | Infinity => "Infinity"
  | NaN => "NaN"
  end.

(** ToString, as a template literal applies it to an interpolated value.
    [Array.prototype.join] prints [null] and [undefined] as nothing. *)
Fixpoint to_string (v : value) : string :=
  match v with
  | VUndefined => "undefined"
  | VNull => "null"
  | VBool true => "true"
  | VBool false => "false"
  | VNum n => number_to_string n
  | VStr s => s
  | VArr xs =>
      (fix join (l : list value) : string :=
         match l with
         | [] => ""
         | x :: rest =>
             let here := match x with
                         | VUndefined | VNull => ""
                         | _ => to_string x
                         end in
             match rest with
             | [] => here
             | _ :: _ => here ++ "," ++ join rest
             end
         end) xs
  | VObj _ => "[object Object]"
  end.

Fixpoint assoc (k : string) (fields : list (string * value)) : option value :=
  match fields with
  | [] => None
  | (k', v) :: rest => if k' =? k then Some v else assoc k rest
  end.

(** An own property of a plain object; [undefined] when the key is absent. *)
Definition own (k : string) (fields : list (string * value)) : value :=
  match assoc k fields with
  | Some v => v
  | None => VUndefined
  end.

(** Property read [v.k].  [None] stands for the TypeError raised on
    [undefined] and [null].  Besides own properties only [length] is
    resolved, which covers every name the sources read. *)
Definition prop (v : value) (k : string) : option value :=
  match v with
  | VUndefined | VNull => None
  | VObj fields => Some (own k fields)
  | VArr xs =>
      Some (if k =? "length" then num (Z.of_nat (List.length xs)) else VUndefined)
  | VStr s =>
      Some (if k =? "length" then num (Z.of_nat (String.length s)) else VUndefined)
  | VBool _ | VNum _ => Some VUndefined
  end.

(** Optional chaining [v?.k]. *)
Definition opt_prop (v : value) (k : string) : value :=
  match prop v k with
  | Some x => x
  | None => VUndefined
  end.

(** Indexing [v[0]]. *)
Definition first (v : value) : option value :=
  match v with
  | VUndefined | VNull => None
  | VArr xs => Some (hd VUndefined xs)
  | VStr (String c _) => Some (VStr (String c EmptyString))
  | VStr EmptyString => Some VUndefined
  | VObj fields => Some (own "0" fields)
  | VBool _ | VNum _ => Some VUndefined
  end.

(** [v === 0] *)
Definition is_zero (v : value) : bool :=
  match v with
  | VNum (Int 0) => true
  | _ => false
  end.

(** Method calls whose receiver must be a string; a non-string receiver has
    no such method and the call raises a TypeError ([None]). *)
Definition call_replace (v : value) (pat rep : string) : option value :=
  match v with
  | VStr s => Some (VStr (replace s pat rep))
  | _ => None
  end.

Definition call_startsWith (v : value) (p : string) : option bool :=
  match v with
  | VStr s => Some (startsWith s p)
  | _ => None
  end.

(** [Array.prototype.slice(start, end)] with JavaScript's treatment of
    negative and oversized indices. *)
Definition clamp_index (len i : Z) : Z :=
  if (i <? 0)%Z then Z.max (len + i) 0 else Z.min i len.

Definition slice {A : Type} (xs : list A) (s e : Z) : list A :=
  let len := Z.of_nat (List.length xs) in
  let k := clamp_index len s in
  let f := clamp_index len e in
  firstn (Z.to_nat (f - k)) (skipn (Z.to_nat k) xs).

(** [Math.ceil(a / b)] on integers. *)
Definition ceil_div (a b : Z) : number :=
  if (b =? 0)%Z then (if (a =? 0)%Z then NaN else Infinity)
  else Int (- ((- a) / b))%Z.

(** Setting a property keeps the position of an existing key. *)
Fixpoint set_field (k : string) (v : value) (fields : list (string * value))
  : list (string * value) :=
  match fields with
  | [] => [(k, v)]
  | (k', v') :: rest =>
      if k' =? k then (k, v) :: rest else (k', v') :: set_field k v rest
  end.

Definition index_key (i : nat) : string := NilZero.string_of_uint (Nat.to_uint i).

Fixpoint indexed {A : Type} (f : A -> value) (i : nat) (xs : list A)
  : list (string * value) :=
  match xs with
  | [] => []
  | x :: rest => (index_key i, f x) :: indexed f (S i) rest
  end.

(** Object spread [{...v}]: the own enumerable properties of [v]. *)
Definition spread (v : value) : list (string * value) :=
  match v with
  | VObj fields => fields
  | VArr xs => indexed (fun x => x) 0 xs
  | VStr s => indexed (fun c => VStr (String c EmptyString)) 0 (list_ascii_of_string s)
  | _ => []
  end.

End Js.

Import Js.

(* ================================================================== *)
(** ** HTTP exchanges, exceptions and the handler monad *)
(* ================================================================== *)

Inductive http_method : Type := GET | POST | PUT.

(** The configuration handed to [axios.create]. *)
Record instance : Type := {
  baseURL : value;
  authorization : string
}.

Record request : Type := {
  req_via : instance;
  req_method : http_method;
  req_url : string;
  req_body : value
}.

Record response : Type := {
  status : Z;
  data : value
}.

(** What axios rejects with: [error.response] is absent when no response
    arrived at all. *)
Record axios_error : Type := {
  err_response : option response;
  err_message : string
}.

Inductive settled : Type :=
| Resolved (r : response)
| Rejected (e : axios_error).

Definition event : Type := request * settled.

Inductive error_code : Type := InvalidParams | MethodNotFound.

(** [AzureDevOpsError] is the class the operations import from
    [common/errors.js]; its compiled form, kept with [dist/index.js], is
    [class AzureDevOpsError extends Error] whose constructor hands its
    message to [Error] and sets the name, so the exception carries the
    message it was constructed with.  [McpError] is the protocol SDK's error
    and carries the code and the message given to its constructor.  The
    other exceptions are the rejections of axios, the TypeError of the
    language and the plain [Error] thrown at startup. *)
Inductive exn : Type :=
| AxiosError (e : axios_error)
| AzureDevOpsError (message : string)
| McpError (code : error_code) (message : string)
| TypeError
| JsError (message : string).

Inductive result (A : Type) : Type :=
| Ok (a : A)
| Throw (e : exn).
Arguments Ok {A} a.
Arguments Throw {A} e.

(** What the sources take from outside: the process environment, the remote
    platform (an oracle over the exchanges so far), the built-ins
    [JSON.stringify], [encodeURIComponent], string-to-number conversion and
    the case folding of [String.prototype.toLowerCase] (the host's Unicode
    mapping, of which nothing is assumed), and [encodeToBase64] of
    [common/utils.js], which is not among the sources. *)
Class World : Type := {
  env : string -> option string;
  platform : list event -> request -> settled;
  JSON_stringify : value -> value;
  encodeURIComponent : string -> string;
  encodeToBase64 : string -> string;
  string_to_number : string -> number;
  fold_case : string -> string
}.

(** An asynchronous function: it extends the log of exchanges and either
    returns or throws. *)
Definition M (A : Type) : Type := list event -> result A * list event.

Definition ret {A : Type} (a : A) : M A := fun tr => (Ok a, tr).

Definition throw {A : Type} (e : exn) : M A := fun tr => (Throw e, tr).

Definition bind {A B : Type} (m : M A) (k : A -> M B) : M B :=
  fun tr =>
    match m tr with
    | (Ok a, tr') => k a tr'
    | (Throw e, tr') => (Throw e, tr')
    end.

Definition try_catch {A : Type} (m : M A) (handler : exn -> M A) : M A :=
  fun tr =>
    match m tr with
    | (Ok a, tr') => (Ok a, tr')
    | (Throw e, tr') => handler e tr'
    end.

(** A synchronous step that may raise a TypeError. *)
Definition check {A : Type} (o : option A) : M A :=
  match o with
  | Some a => ret a
  | None => throw TypeError
  end.

Notation "x <- m ;; k" := (bind m (fun x => k))
  (at level 61, m at next level, right associativity).

(** The exchanges a computation adds to the log. *)
Definition emitted {A : Type} (m : M A) (tr : list event) : list event :=
  skipn (List.length tr) (snd (m tr)).

Definition is_post (ev : event) : bool :=
  match req_method (fst ev) with
  | POST => true
  | _ => false
  end.

(* ================================================================== *)
(** ** The operation handlers ([operations/*.ts]) *)
(* ================================================================== *)

Fixpoint map_opt {A B : Type} (f : A -> option B) (xs : list A) : option (list B) :=
  match xs with
  | [] => Some []
  | x :: rest =>
      match f x with
      | None => None
      | Some y =>
          match map_opt f rest with
          | None => None
          | Some ys => Some (y :: ys)
          end
      end
  end.

(** [xs.filter(keep)] where the callback may raise. *)
Fixpoint filter_opt {A : Type} (keep : A -> option bool) (xs : list A)
  : option (list A) :=
  match xs with
  | [] => Some []
  | x :: rest =>
      match keep x with
      | None => None
      | Some b =>
          match filter_opt keep rest with
          | None => None
          | Some ys => Some (if b then x :: ys else ys)
          end
      end
  end.

(** [v.map(f)]: only arrays have the method. *)
Definition call_map (v : value) (f : value -> option value) : option value :=
  match v with
  | VArr xs => option_map VArr (map_opt f xs)
  | _ => None
  end.

Definition api_prefix : string := "Azure DevOps API error: ".

Section Operations.

Context {W : World}.

Definition process_env (k : string) : value :=
  match env k with
  | Some s => VStr s
  | None => VUndefined
  end.

Definition ORG_URL : value := process_env "AZURE_DEVOPS_ORG_URL".
Definition API_TOKEN : value := process_env "AZURE_DEVOPS_API_TOKEN".

Definition axios_create : instance :=
  {| baseURL := ORG_URL;
     authorization := "Basic " ++ encodeToBase64 (":" ++ to_string API_TOKEN) |}.

(** One request through the configured instance: the platform settles it
    and the exchange is logged. *)
Definition send (meth : http_method) (url : string) (body : value) : M response :=
  fun tr =>
    let rq := {| req_via := axios_create; req_method := meth;
                 req_url := url; req_body := body |} in
    let out := platform tr rq in
    (match out with
     | Resolved r => Ok r
     | Rejected e => Throw (AxiosError e)
     end, (tr ++ [(rq, out)])%list).

(** [error.response?.data?.message ?? error.message] *)
Definition axios_detail (e : axios_error) : value :=
  coalesce
    (match err_response e with
     | Some r => opt_prop (data r) "message"
     | None => VUndefined
     end)
    (VStr (err_message e)).

Definition api_error (e : axios_error) : exn :=
  AzureDevOpsError (api_prefix ++ to_string (axios_detail e)).

(** The [catch] block every operation ends with. *)
Definition api_guard {A : Type} (body : M A) : M A :=
  try_catch body
    (fun error =>
       match error with
       | AxiosError e => throw (api_error e)
       | _ => throw error
       end).

Definition repo_path (projectId repositoryId : value) : string :=
  to_string projectId ++ "/_apis/git/repositories/" ++ to_string repositoryId.

(** *** branches.ts *)

Definition getBranches (projectId repositoryId : value) : M value :=
  api_guard (
    response <- send GET
      (repo_path projectId repositoryId ++ "/refs?filter=heads&api-version=7.1")
      VUndefined ;;
    ret (data response)).

Definition getDefaultBranch (projectId repositoryId : value) : M value :=
  api_guard (
    response <- send GET
      (repo_path projectId repositoryId ++ "?api-version=7.1") VUndefined ;;
    check (prop (data response) "defaultBranch")).

(** [!v || v.length === 0] for [v = response.data.value] *)
Definition none_listed (v : value) : bool :=
  negb (truthy v) || is_zero (opt_prop v "length").

Definition getBranchRef (projectId repositoryId branchName : value) : M value :=
  api_guard (
    qualified <- check (call_startsWith branchName "refs/heads/") ;;
    let formattedBranchName :=
      if qualified then to_string branchName
      else "refs/heads/" ++ to_string branchName in
    response <- send GET
      (repo_path projectId repositoryId ++ "/refs?filter="
         ++ encodeURIComponent formattedBranchName ++ "&api-version=7.1")
      VUndefined ;;
    found <- check (prop (data response) "value") ;;
    if none_listed found
    then throw (AzureDevOpsError ("Branch " ++ to_string branchName ++ " not found"))
    else check (first found)).

Definition getLatestCommit (projectId repositoryId branchName : value) : M value :=
  api_guard (
    response <- send GET
      (repo_path projectId repositoryId
         ++ "/commits?searchCriteria.itemVersion.version=" ++ to_string branchName
         ++ "&searchCriteria.$top=1&api-version=7.1")
      VUndefined ;;
    found <- check (prop (data response) "value") ;;
    if none_listed found
    then throw (AzureDevOpsError
                  ("No commits found for branch " ++ to_string branchName))
    else
      head <- check (first found) ;;
      check (prop head "commitId")).

Definition zero_object_id : string := "0000000000000000000000000000000000000000".

Definition new_ref (branchName commitId : value) : value :=
  VObj [("name", VStr ("refs/heads/" ++ to_string branchName));
        ("newObjectId", commitId);
        ("oldObjectId", VStr zero_object_id)].

Definition createBranch (projectId repositoryId branchName fromBranch : value)
  : M value :=
  api_guard (
    sourceBranch <-
      (if truthy fromBranch then ret fromBranch
       else
         defaultBranch <- getDefaultBranch projectId repositoryId ;;
         check (call_replace defaultBranch "refs/heads/" "")) ;;
    commitId <- getLatestCommit projectId repositoryId sourceBranch ;;
    response <- send POST
      (repo_path projectId repositoryId ++ "/refs?api-version=7.1")
      (new_ref branchName commitId) ;;
    updated <- check (prop (data response) "value") ;;
    check (first updated)).

Definition updateBranch
  (projectId repositoryId branchName newCommitId oldCommitId : value) : M value :=
  api_guard (
    qualified <- check (call_startsWith branchName "refs/heads/") ;;
    let formattedBranchName :=
      if qualified then to_string branchName
      else "refs/heads/" ++ to_string branchName in
    response <- send POST
      (repo_path projectId repositoryId ++ "/refs?api-version=7.1")
      (VObj [("name", VStr formattedBranchName);
             ("newObjectId", newCommitId);
             ("oldObjectId", oldCommitId)]) ;;
    updated <- check (prop (data response) "value") ;;
    check (first updated)).

(** *** commits.ts, pulls.ts, issues.ts *)

Definition getCommits (projectId repositoryId branch : value) : M value :=
  api_guard (
    response <- send GET
      (repo_path projectId repositoryId
         ++ "/commits?searchCriteria.itemVersion.version=" ++ to_string branch
         ++ "&api-version=7.1")
      VUndefined ;;
    ret (data response)).

Definition createPullRequest
  (projectId repositoryId sourceBranch targetBranch title description : value)
  : M value :=
  api_guard (
    response <- send POST
      (repo_path projectId repositoryId ++ "/pullrequests?api-version=7.1")
      (VObj [("sourceRefName", VStr ("refs/heads/" ++ to_string sourceBranch));
             ("targetRefName", VStr ("refs/heads/" ++ to_string targetBranch));
             ("title", title);
             ("description", description)]) ;;
    ret (data response)).

Definition getIssue (projectId repositoryId issueId : value) : M value :=
  api_guard (
    response <- send GET
      (to_string projectId ++ "/_apis/wit/workitems/" ++ to_string issueId
         ++ "?api-version=7.1")
      VUndefined ;;
    ret (data response)).

Definition addIssueComment (projectId repositoryId issueId comment : value)
  : M value :=
  api_guard (
    response <- send POST
      (to_string projectId ++ "/_apis/wit/workitems/" ++ to_string issueId
         ++ "/comments?api-version=7.1")
      (VObj [("text", comment)]) ;;
    ret (data response)).

(** *** files.ts *)

Definition getFileContent (projectId repositoryId filePath branch : value)
  : M value :=
  api_guard (
    response <- send GET
      (repo_path projectId repositoryId ++ "/items?path=" ++ to_string filePath
         ++ "&versionDescriptor.version=" ++ to_string branch ++ "&api-version=7.1")
      VUndefined ;;
    ret (data response)).

Definition edit_change (path content : value) : value :=
  VObj [("changeType", VStr "edit");
        ("item", VObj [("path", path)]);
        ("newContent", VObj [("contentType", VStr "rawtext");
                             ("content", content)])].

Definition push_body (branch oldObjectId commitMessage changes : value) : value :=
  VObj [("refUpdates",
         VArr [VObj [("name", VStr ("refs/heads/" ++ to_string branch));
                     ("oldObjectId", oldObjectId)]]);
        ("commits",
         VArr [VObj [("comment", commitMessage); ("changes", changes)]])].

Definition createOrUpdateFile
  (projectId repositoryId filePath content commitMessage branch : value)
  : M value :=
  api_guard (
    commitsResponse <- send GET
      (repo_path projectId repositoryId
         ++ "/commits?searchCriteria.itemVersion.version=" ++ to_string branch
         ++ "&api-version=7.1")
      VUndefined ;;
    latest <- check (first (data commitsResponse)) ;;
    latestCommitId <- check (prop latest "commitId") ;;
    response <- send PUT
      (repo_path projectId repositoryId ++ "/pushes?api-version=7.1")
      (push_body branch latestCommitId commitMessage
         (VArr [edit_change filePath content])) ;;
    ret (data response)).

(** [files.ts] exports [createOrUpdateFile] a second time under this name. *)
Definition updateFileContent := createOrUpdateFile.

Definition file_change (file : value) : option value :=
  match prop file "path" with
  | None => None
  | Some path =>
      match prop file "content" with
      | None => None
      | Some content => Some (edit_change path content)
      end
  end.

Definition pushFiles (projectId repositoryId branch files commitMessage : value)
  : M value :=
  api_guard (
    latestCommitId <- getLatestCommit projectId repositoryId branch ;;
    changes <- check (call_map files file_change) ;;
    response <- send POST
      (repo_path projectId repositoryId ++ "/pushes?api-version=7.1")
      (push_body branch latestCommitId commitMessage changes) ;;
    ret (data response)).

(** *** repository.ts *)

Definition createRepository (projectId name description : value) : M value :=
  api_guard (
    response <- send POST "_apis/git/repositories?api-version=7.1"
      (VObj [("name", name);
             ("project", VObj [("id", projectId)]);
             ("defaultBranch", VStr "main");
             ("description", description)]) ;;
    ret (data response)).

(** [s.toLowerCase()]: the empty string has nothing to fold, any other text
    is folded by the host. *)
Definition toLowerCase (s : string) : string :=
  match s with
  | EmptyString => EmptyString
  | _ => fold_case s
  end.

(** The method called on a value: a non-string receiver has no such method
    and the call raises a TypeError ([None]). *)
Definition call_toLowerCase (v : value) : option string :=
  match v with
  | VStr s => Some (toLowerCase s)
  | _ => None
  end.

(** The filter callback of [searchRepositories]:
    [name.toLowerCase().includes(q) || (description && description...includes(q))] *)
Definition repo_matches (query : string) (repo : value) : option bool :=
  match prop repo "name" with
  | None => None
  | Some name =>
      match call_toLowerCase name with
      | None => None
      | Some lowered =>
          if includes lowered (toLowerCase query) then Some true
          else
            let description := opt_prop repo "description" in
            if truthy description then
              match call_toLowerCase description with
              | None => None
              | Some text => Some (includes text (toLowerCase query))
              end
            else Some false
      end
  end.

(** [v.filter(keep)]: only arrays have the method. *)
Definition call_filter (v : value) (keep : value -> option bool)
  : option (list value) :=
  match v with
  | VArr xs => filter_opt keep xs
  | _ => None
  end.

Definition default_to (d : Z) (o : option Z) : Z :=
  match o with
  | Some z => z
  | None => d
  end.

Definition page_of (filteredRepos : list value) (page perPage : Z) : value :=
  let startIndex := ((page - 1) * perPage)%Z in
  let paginatedRepos := slice filteredRepos startIndex (startIndex + perPage)%Z in
  VObj [("total_count", num (Z.of_nat (List.length filteredRepos)));
        ("items", VArr paginatedRepos);
        ("page", num page);
        ("perPage", num perPage);
        ("totalPages",
         VNum (ceil_div (Z.of_nat (List.length filteredRepos)) perPage))].

(** [page] and [perPage] are optional numbers with defaults 1 and 30. *)
Definition searchRepositories
  (projectId query : string) (page perPage : option Z) : M value :=
  let page := default_to 1 page in
  let perPage := default_to 30 perPage in
  api_guard (
    response <- send GET
      (projectId ++ "/_apis/git/repositories?api-version=7.1") VUndefined ;;
    listing <- check (prop (data response) "value") ;;
    filteredRepos <- check (call_filter listing (repo_matches query)) ;;
    ret (page_of filteredRepos page perPage)).

Definition forkRepository (projectId repositoryId name targetProjectId : value)
  : M value :=
  api_guard (
    sourceRepoResponse <- send GET
      (repo_path projectId repositoryId ++ "?api-version=7.1") VUndefined ;;
    let sourceRepo := data sourceRepoResponse in
    let targetProject := or_else targetProjectId projectId in
    sourceName <- check (prop sourceRepo "name") ;;
    let sourceDescription := or_else (opt_prop sourceRepo "description") (VStr "") in
    newRepo <- createRepository targetProject name
      (VStr ("Fork of " ++ to_string sourceName ++ ": "
               ++ to_string sourceDescription)) ;;
    newId <- check (prop newRepo "id") ;;
    _ <- send POST
      (repo_path targetProject newId ++ "/importRequests?api-version=7.1")
      (VObj [("parameters",
              VObj [("gitSource",
                     VObj [("url", opt_prop sourceRepo "remoteUrl")])])]) ;;
    ret (VObj (set_field "source" sourceRepo (spread newRepo)))).

(** *** search.ts *)

Definition searchCode (projectId repositoryId searchText filePath top : value)
  : M value :=
  api_guard (
    response <- send GET
      (repo_path projectId repositoryId ++ "/items?search=" ++ to_string searchText
         ++ "&api-version=7.1")
      VUndefined ;;
    ret (data response)).

(** A default parameter value applies when the argument is [undefined]. *)
Definition default_arg (v d : value) : value :=
  match v with
  | VUndefined => d
  | _ => v
  end.

Definition to_number (v : value) : number :=
  match v with
  | VUndefined => NaN
  | VNull => Int 0
  | VBool true => Int 1
  | VBool false => Int 0
  | VNum n => n
  | _ => string_to_number (to_string v)
  end.

(** [v > 0] *)
Definition positive (v : value) : bool :=
  match to_number v with
  | Int z => (0 <? z)%Z
  | Infinity => true
  | NaN => false
  end.

Definition wiql (projectId query state type assignedTo : value) : string :=
  "SELECT [System.Id], [System.Title], [System.State], [System.WorkItemType], [System.AssignedTo], [System.CreatedDate], [System.ChangedDate] FROM WorkItems WHERE [System.TeamProject] = '"
    ++ to_string projectId ++ "' AND CONTAINS(System.Title, '" ++ to_string query ++ "')"
    ++ (if truthy state then " AND [System.State] = '" ++ to_string state ++ "'" else "")
    ++ (if truthy type then " AND [System.WorkItemType] = '" ++ to_string type ++ "'" else "")
    ++ (if truthy assignedTo
        then " AND [System.AssignedTo] = '" ++ to_string assignedTo ++ "'" else "")
    ++ " ORDER BY [System.ChangedDate] DESC".

Definition searchWorkItems (projectId query state type assignedTo top : value)
  : M value :=
  let top := default_arg top (num 100) in
  api_guard (
    response <- send POST
      (to_string projectId ++ "/_apis/wit/wiql?api-version=7.1&$top=" ++ to_string top)
      (VObj [("query", VStr (wiql projectId query state type assignedTo))]) ;;
    workItems <- check (prop (data response) "workItems") ;;
    if truthy workItems && positive (opt_prop workItems "length") then
      ids <- check (call_map workItems (fun item => prop item "id")) ;;
      detailsResponse <- send GET
        ("_apis/wit/workitems?ids=" ++ to_string ids ++ "&api-version=7.1")
        VUndefined ;;
      count <- check (prop (data detailsResponse) "count") ;;
      ret (VObj [("count", count);
                 ("value", opt_prop (data detailsResponse) "value")])
    else
      ret (VObj [("count", num 0); ("value", VArr [])])).

Definition searchUsers (query top : value) : M value :=
  let top := default_arg top (num 100) in
  api_guard (
    response <- send GET
      ("_apis/graph/users?searchString=" ++ encodeURIComponent (to_string query)
         ++ "&api-version=7.1-preview.1&$top=" ++ to_string top)
      VUndefined ;;
    count <- check (prop (data response) "count") ;;
    ret (VObj [("count", count); ("value", opt_prop (data response) "value")])).

End Operations.

(* ================================================================== *)
(** ** The server ([index.ts]): startup, catalog and dispatcher *)
(* ================================================================== *)

Record tool_descriptor : Type := {
  tool_name : string;
  tool_description : string;
  required : list string
}.

(** The answer to [ListTools].  For the tools whose schema is a zod object
    the required names are its fields that are not [optional()]. *)
Definition catalog : list tool_descriptor :=
  [ {| tool_name := "get_projects";
       tool_description := "Get a list of Azure DevOps projects";
       required := [] |};
    {| tool_name := "get_repositories";
       tool_description := "Get a list of repositories for a project";
       required := ["project_id"] |};
    {| tool_name := "create_repository";
       tool_description := "Create a new repository";
       required := ["project_id"; "name"] |};
    {| tool_name := "create_pull_request";
       tool_description := "Create a new pull request";
       required := ["project_id"; "repository_id"; "source_branch";
                    "target_branch"; "title"] |};
    {| tool_name := "add_issue_comment";
       tool_description := "Add a comment to an existing issue";
       required := ["project_id"; "repository_id"; "issue_id"; "comment"] |};
    {| tool_name := "get_branches";
       tool_description := "Get a list of branches for a repository";
       required := ["project_id"; "repository_id"] |};
    {| tool_name := "get_commits";
       tool_description := "Get a list of commits for a branch";
       required := ["project_id"; "repository_id"; "branch"] |};
    {| tool_name := "get_file_content";
       tool_description := "Get the content of a file";
       required := ["project_id"; "repository_id"; "file_path"; "branch"] |};
    {| tool_name := "update_file_content";
       tool_description := "Update the content of a file";
       required := ["project_id"; "repository_id"; "file_path"; "branch";
                    "content"; "commit_message"] |};
    {| tool_name := "search_code";
       tool_description := "Search for code in a repository";
       required := ["project_id"; "repository_id"; "search_text"] |};
    {| tool_name := "search_work_items";
       tool_description :=
         "Search for work items (issues, tasks, bugs) in a project";
       required := ["project_id"; "query"] |};
    {| tool_name := "search_users";
       tool_description := "Search for users in the organization";
       required := ["query"] |};
    {| tool_name := "fork_repository";
       tool_description := "Fork a repository to create a new copy";
       required := ["project_id"; "repository_id"; "name"] |};
    {| tool_name := "create_branch";
       tool_description := "Create a new branch in a repository";
       required := ["project_id"; "repository_id"; "branch"] |};
    {| tool_name := "update_branch";
       tool_description := "Update an existing branch to point to a new commit";
       required := ["project_id"; "repository_id"; "branch"; "new_commit_id";
                    "old_commit_id"] |};
    {| tool_name := "push_files";
       tool_description :=
         "Push multiple files to a repository in a single commit";
       required := ["project_id"; "repository_id"; "branch"; "files";
                    "commit_message"] |};
    {| tool_name := "create_or_update_file";
       tool_description := "Create a new file or update an existing file";
       required := ["project_id"; "repository_id"; "path"; "content";
                    "commit_message"; "branch"] |} ].

Definition catalog_names : list string := map tool_name catalog.

(** The tools whose branch of the dispatcher calls into [operations/*.ts];
    [get_projects] and [get_repositories] talk to the platform inline. *)
Definition operation_tools : list string :=
  filter (fun n => negb ((n =? "get_projects") || (n =? "get_repositories")))
         catalog_names.

(** [request.params] of a [CallTool] request. *)
Record tool_call : Type := {
  name : string;
  arguments : option (list (string * value))
}.

(** [request.params.arguments?.k] *)
Definition arg (call : tool_call) (k : string) : value :=
  match arguments call with
  | Some fields => own k fields
  | None => VUndefined
  end.

(** [{ content: [{ type: 'text', text }], isError }] *)
Record tool_result : Type := {
  text : value;
  isError : bool
}.

Definition success (t : value) : tool_result := {| text := t; isError := false |}.
Definition failure (t : string) : tool_result := {| text := VStr t; isError := true |}.

Inductive boot_step : Type :=
| ServerConstructed
| HandlersRegistered
| TransportConnected.

Definition credentials_required : string :=
  "AZURE_DEVOPS_ORG_URL and AZURE_DEVOPS_API_TOKEN environment variables are required".

Section Server.

Context {W : World}.

(** Module initialization: the credential check precedes [run()], which
    constructs the server, registers the handlers and connects. *)
Definition startup : result unit * list boot_step :=
  if negb (truthy ORG_URL) || negb (truthy API_TOKEN)
  then (Throw (JsError credentials_required), [])
  else (Ok tt, [ServerConstructed; HandlersRegistered; TransportConnected]).

(** The [try]/[catch] of the two inline handlers. *)
Definition respond_inline (body : M tool_result) : M tool_result :=
  try_catch body
    (fun error =>
       match error with
       | AxiosError e => ret (failure (api_prefix ++ err_message e))
       | _ => throw error
       end).

(** The [try]/[catch] around every call into [operations/*.ts]. *)
Definition respond (operation : M value) : M tool_result :=
  try_catch
    (response <- operation ;; ret (success (JSON_stringify response)))
    (fun error =>
       match error with
       | AzureDevOpsError message => ret (failure (api_prefix ++ message))
       | _ => throw error
       end).

Definition invalid {A : Type} (message : string) : M A :=
  throw (McpError InvalidParams message).

Definition missing (v : value) : bool := negb (truthy v).

(** The [CallTool] request handler. *)
Definition call_tool (call : tool_call) : M tool_result :=
  let a := arg call in
  if name call =? "get_projects" then
    respond_inline (
      response <- send GET "_apis/projects?api-version=7.1" VUndefined ;;
      listed <- check (prop (data response) "value") ;;
      ret (success (JSON_stringify listed)))
  else if name call =? "get_repositories" then
    let projectId := a "project_id" in
    if missing projectId then invalid "project_id is required"
    else
      respond_inline (
        response <- send GET
          (to_string projectId ++ "/_apis/git/repositories?api-version=7.1")
          VUndefined ;;
        listed <- check (prop (data response) "value") ;;
        ret (success (JSON_stringify listed)))
  else if name call =? "create_repository" then
    let projectId := a "project_id" in
    let name := a "name" in
    let description := a "description" in
    if missing projectId || missing name
    then invalid "project_id and name are required"
    else respond (createRepository projectId name (coalesce description (VStr "")))
  else if name call =? "create_pull_request" then
    let projectId := a "project_id" in
    let repositoryId := a "repository_id" in
    let sourceBranch := a "source_branch" in
    let targetBranch := a "target_branch" in
    let title := a "title" in
    let description := a "description" in
    if missing projectId || missing repositoryId || missing sourceBranch
       || missing targetBranch || missing title
    then invalid "project_id, repository_id, source_branch, target_branch, and title are required"
    else respond (createPullRequest projectId repositoryId sourceBranch
                    targetBranch title (coalesce description (VStr "")))
  else if name call =? "add_issue_comment" then
    let projectId := a "project_id" in
    let repositoryId := a "repository_id" in
    let issueId := a "issue_id" in
    let comment := a "comment" in
    if missing projectId || missing repositoryId || missing issueId
       || missing comment
    then invalid "project_id, repository_id, issue_id, and comment are required"
    else respond (addIssueComment projectId repositoryId issueId comment)
  else if name call =? "get_branches" then
    let projectId := a "project_id" in
    let repositoryId := a "repository_id" in
    if missing projectId || missing repositoryId
    then invalid "project_id and repository_id are required"
    else respond (getBranches projectId repositoryId)
  else if name call =? "get_commits" then
    let projectId := a "project_id" in
    let repositoryId := a "repository_id" in
    let branch := a "branch" in
    if missing projectId || missing repositoryId || missing branch
    then invalid "project_id, repository_id, and branch are required"
    else respond (getCommits projectId repositoryId branch)
  else if name call =? "get_file_content" then
    let projectId := a "project_id" in
    let repositoryId := a "repository_id" in
    let filePath := a "file_path" in
    let branch := a "branch" in
    if missing projectId || missing repositoryId || missing filePath
       || missing branch
    then invalid "project_id, repository_id, file_path, and branch are required"
    else respond (getFileContent projectId repositoryId filePath branch)
  else if name call =? "update_file_content" then
    let projectId := a "project_id" in
    let repositoryId := a "repository_id" in
    let filePath := a "file_path" in
    let branch := a "branch" in
    let content := a "content" in
    let commitMessage := a "commit_message" in
    if missing projectId || missing repositoryId || missing filePath
       || missing branch || missing content || missing commitMessage
    then invalid "project_id, repository_id, file_path, branch, content, and commit_message are required"
    else respond (updateFileContent projectId repositoryId filePath branch
                    content commitMessage)
  else if name call =? "search_code" then
    let projectId := a "project_id" in
    let repositoryId := a "repository_id" in
    let searchText := a "search_text" in
    let filePath := a "file_path" in
    let top := a "top" in
    if missing projectId || missing repositoryId || missing searchText
    then invalid "project_id, repository_id, and search_text are required"
    else respond (searchCode projectId repositoryId searchText filePath top)
  else if name call =? "search_work_items" then
    let projectId := a "project_id" in
    let query := a "query" in
    let state := a "state" in
    let type := a "type" in
    let assignedTo := a "assigned_to" in
    let top := a "top" in
    if missing projectId || missing query
    then invalid "project_id and query are required"
    else respond (searchWorkItems projectId query state type assignedTo top)
  else if name call =? "search_users" then
    let query := a "query" in
    let top := a "top" in
    if missing query then invalid "query is required"
    else respond (searchUsers query top)
  else if name call =? "fork_repository" then
    let projectId := a "project_id" in
    let repositoryId := a "repository_id" in
    let name := a "name" in
    let targetProjectId := a "target_project_id" in
    if missing projectId || missing repositoryId || missing name
    then invalid "project_id, repository_id, and name are required"
    else respond (forkRepository projectId repositoryId name targetProjectId)
  else if name call =? "create_branch" then
    let projectId := a "project_id" in
    let repositoryId := a "repository_id" in
    let branch := a "branch" in
    let fromBranch := a "from_branch" in
    if missing projectId || missing repositoryId || missing branch
    then invalid "project_id, repository_id, and branch are required"
    else respond (createBranch projectId repositoryId branch fromBranch)
  else if name call =? "update_branch" then
    let projectId := a "project_id" in
    let repositoryId := a "repository_id" in
    let branch := a "branch" in
    let newCommitId := a "new_commit_id" in
    let oldCommitId := a "old_commit_id" in
    if missing projectId || missing repositoryId || missing branch
       || missing newCommitId || missing oldCommitId
    then invalid "project_id, repository_id, branch, new_commit_id, and old_commit_id are required"
    else respond (updateBranch projectId repositoryId branch newCommitId oldCommitId)
  else if name call =? "push_files" then
    let projectId := a "project_id" in
    let repositoryId := a "repository_id" in
    let branch := a "branch" in
    let files := a "files" in
    let commitMessage := a "commit_message" in
    if missing projectId || missing repositoryId || missing branch
       || missing files || missing commitMessage
    then invalid "project_id, repository_id, branch, files, and commit_message are required"
    else respond (pushFiles projectId repositoryId branch files commitMessage)
  else if name call =? "create_or_update_file" then
    let projectId := a "project_id" in
    let repositoryId := a "repository_id" in
    let path := a "path" in
    let content := a "content" in
    let commitMessage := a "commit_message" in
    let branch := a "branch" in
    if missing projectId || missing repositoryId || missing path
       || missing content || missing commitMessage || missing branch
    then invalid "project_id, repository_id, path, content, commit_message, and branch are required"
    else respond (createOrUpdateFile projectId repositoryId path content
                    commitMessage branch)
  else
    throw (McpError MethodNotFound ("Unknown tool: " ++ name call)).

End Server.

(* ================================================================== *)
(** ** Invariants of handlers *)
(* ================================================================== *)

Section Invariants.

Context {W : World}.

(** A [try] body: it only appends to the log, a rejected exchange surfaces
    as the axios error itself or already translated, and nothing but axios
    errors, platform errors and TypeErrors is thrown. *)
Definition tidy {A : Type} (m : M A) : Prop :=
  forall tr, exists news,
    snd (m tr) = (tr ++ news)%list /\
    (forall rq e, In (rq, Rejected e) news ->
       fst (m tr) = Throw (AxiosError e) \/ fst (m tr) = Throw (api_error e)) /\
    (forall x, fst (m tr) = Throw x ->
       (exists e, x = AxiosError e) \/ (exists s, x = AzureDevOpsError s)
       \/ x = TypeError).

(** A whole operation: every axios error has been translated. *)
Definition guarded {A : Type} (m : M A) : Prop :=
  forall tr, exists news,
    snd (m tr) = (tr ++ news)%list /\
    (forall rq e, In (rq, Rejected e) news -> fst (m tr) = Throw (api_error e)) /\
    (forall x, fst (m tr) = Throw x ->
       (exists s, x = AzureDevOpsError s) \/ x = TypeError).

(** The three requests of [createBranch] when no source branch is given. *)
Definition default_branch_request (projectId repositoryId : value) : request :=
  {| req_via := axios_create; req_method := GET;
     req_url := repo_path projectId repositoryId ++ "?api-version=7.1";
     req_body := VUndefined |}.

Definition latest_commit_request (projectId repositoryId branch : value) : request :=
  {| req_via := axios_create; req_method := GET;
     req_url := repo_path projectId repositoryId
                  ++ "/commits?searchCriteria.itemVersion.version="
                  ++ to_string branch ++ "&searchCriteria.$top=1&api-version=7.1";
     req_body := VUndefined |}.

Definition create_ref_request (projectId repositoryId branch commitId : value)
  : request :=
  {| req_via := axios_create; req_method := POST;
     req_url := repo_path projectId repositoryId ++ "/refs?api-version=7.1";
     req_body := new_ref branch commitId |}.

(** The short name of a branch: [name.replace('refs/heads/', '')]. *)
Definition short_name (defaultBranch : string) : value :=
  VStr (replace defaultBranch "refs/heads/" "").

(** A dispatcher branch past validation: rejected exchanges come back as
    error results and only TypeErrors escape. *)
Definition served (m : M tool_result) : Prop :=
  forall tr, exists news,
    snd (m tr) = (tr ++ news)%list /\
    (forall rq e, In (rq, Rejected e) news ->
       exists t, fst (m tr) = Ok (failure t)) /\
    (forall x, fst (m tr) = Throw x -> x = TypeError).

End Invariants.

(** The functions exported by [operations/*.ts], each with its arguments,
    as one type to quantify over. *)
Inductive operation : Type :=
| GetBranches (projectId repositoryId : value)
| GetDefaultBranch (projectId repositoryId : value)
| GetBranchRef (projectId repositoryId branchName : value)
| GetLatestCommit (projectId repositoryId branchName : value)
| CreateBranch (projectId repositoryId branchName fromBranch : value)
| UpdateBranch (projectId repositoryId branchName newCommitId oldCommitId : value)
| GetCommits (projectId repositoryId branch : value)
| CreatePullRequest
    (projectId repositoryId sourceBranch targetBranch title description : value)
| GetIssue (projectId repositoryId issueId : value)
| AddIssueComment (projectId repositoryId issueId comment : value)
| GetFileContent (projectId repositoryId filePath branch : value)
| CreateOrUpdateFile
    (projectId repositoryId filePath content commitMessage branch : value)
| PushFiles (projectId repositoryId branch files commitMessage : value)
| CreateRepository (projectId name description : value)
| SearchRepositories (projectId query : string) (page perPage : option Z)
| ForkRepository (projectId repositoryId name targetProjectId : value)
| SearchCode (projectId repositoryId searchText filePath top : value)
| SearchWorkItems (projectId query state type assignedTo top : value)
| SearchUsers (query top : value).

Definition perform {W : World} (op : operation) : M value :=
  match op with
  | GetBranches p r => getBranches p r
  | GetDefaultBranch p r => getDefaultBranch p r
  | GetBranchRef p r b => getBranchRef p r b
  | GetLatestCommit p r b => getLatestCommit p r b
  | CreateBranch p r b f => createBranch p r b f
  | UpdateBranch p r b n o => updateBranch p r b n o
  | GetCommits p r b => getCommits p r b
  | CreatePullRequest p r s t title d => createPullRequest p r s t title d
  | GetIssue p r i => getIssue p r i
  | AddIssueComment p r i c => addIssueComment p r i c
  | GetFileContent p r f b => getFileContent p r f b
  | CreateOrUpdateFile p r f c m b => createOrUpdateFile p r f c m b
  | PushFiles p r b f m => pushFiles p r b f m
  | CreateRepository p n d => createRepository p n d
  | SearchRepositories p q page perPage => searchRepositories p q page perPage
  | ForkRepository p r n t => forkRepository p r n t
  | SearchCode p r s f t => searchCode p r s f t
  | SearchWorkItems p q s ty a t => searchWorkItems p q s ty a t
  | SearchUsers q t => searchUsers q t
  end.

(** The validation the catalog calls for: some required argument is falsy. *)
Definition fails_validation (t : tool_descriptor) (call : tool_call) : bool :=
  existsb (fun k => missing (arg call k)) (required t).

(** Deleting a key from an arguments object. *)
Definition remove_key (k : string) (fields : list (string * value))
  : list (string * value) :=
  filter (fun kv => negb (fst kv =? k)) fields.

(** The arguments object as the client sent it: is the key there at all? *)
Definition supplied (call : tool_call) (k : string) : option value :=
  match arguments call with
  | Some fields => assoc k fields
  | None => None
  end.

(* ================================================================== *)
(** ** Mock worlds for concrete runs *)
(* ================================================================== *)

Definition mock_env (k : string) : option string :=
  if k =? "AZURE_DEVOPS_ORG_URL" then Some "https://dev.azure.com/acme/"
  else if k =? "AZURE_DEVOPS_API_TOKEN" then Some "secret"
  else None.

(** The case folding of the example worlds: A-Z go to a-z and every other
    code unit stays, which is what the host does on the ASCII names and
    queries the examples use. *)
Definition ascii_lower_char (c : ascii) : ascii :=
  let n := nat_of_ascii c in
  if ((65 <=? n) && (n <=? 90))%nat then ascii_of_nat (n + 32) else c.

Fixpoint ascii_lower (s : string) : string :=
  match s with
  | EmptyString => EmptyString
  | String c t => String (ascii_lower_char c) (ascii_lower t)
  end.

(** A world around a given platform; the library functions are stand-ins. *)
Definition mock_world (answers : list event -> request -> settled) : World :=
  {| env := mock_env;
     platform := answers;
     JSON_stringify := fun v => VStr (to_string v);
     encodeURIComponent := fun s => s;
     encodeToBase64 := fun s => s;
     string_to_number := fun _ => NaN;
     fold_case := ascii_lower |}.

Definition ok_response (body : value) : settled :=
  Resolved {| status := 200; data := body |}.

(** A platform that resolves everything with an empty object. *)
Definition quiet_platform : list event -> request -> settled :=
  fun _ _ => ok_response (VObj []).

(** A platform that rejects everything with a 404 whose body carries a
    message; the error's own message is the one axios composes. *)
Definition not_found_error : axios_error :=
  {| err_response :=
       Some {| status := 404; data := VObj [("message", VStr "not found")] |};
     err_message := "Request failed with status code 404" |}.

Definition not_found_platform : list event -> request -> settled :=
  fun _ _ => Rejected not_found_error.

(** A world without the API token. *)
Definition tokenless_world : World :=
  {| env := fun k => if k =? "AZURE_DEVOPS_ORG_URL"
                     then Some "https://dev.azure.com/acme/" else None;
     platform := quiet_platform;
     JSON_stringify := fun v => VStr (to_string v);
     encodeURIComponent := fun s => s;
     encodeToBase64 := fun s => s;
     string_to_number := fun _ => NaN;
     fold_case := ascii_lower |}.

(* ================================================================== *)
(** ** Repositories as the platform lists them *)
(* ================================================================== *)

(** A repository of the listing: the fields of [AzureDevOpsRepository]
    and the optional description the search looks at. *)
Record repository : Type := {
  repo_id : string;
  repo_name : string;
  repo_url : string;
  repo_defaultBranch : string;
  repo_description : option string
}.

Definition repository_json (x : repository) : value :=
  VObj ([("id", VStr (repo_id x));
         ("name", VStr (repo_name x));
         ("url", VStr (repo_url x));
         ("defaultBranch", VStr (repo_defaultBranch x))]
        ++ match repo_description x with
           | Some d => [("description", VStr d)]
           | None => []
           end)%list.

(** The filter in the words of the specification: the name, or the
    description when there is one, contains the query once both are
    lower-cased. *)
Definition keeps {W : World} (query : string) (x : repository) : bool :=
  includes (toLowerCase (repo_name x)) (toLowerCase query)
  || match repo_description x with
     | Some d => includes (toLowerCase d) (toLowerCase query)
     | None => false
     end.

(** The page window in the words of the specification: the positions from
    [(page - 1) * perPage] up to, not including, [(page - 1) * perPage + perPage]. *)
Definition page_window {A : Type} (xs : list A) (page perPage : Z) : list A :=
  firstn (Z.to_nat perPage) (skipn (Z.to_nat ((page - 1) * perPage)) xs).

Definition listing_request {W : World} (projectId : string) : request :=
  {| req_via := axios_create; req_method := GET;
     req_url := projectId ++ "/_apis/git/repositories?api-version=7.1";
     req_body := VUndefined |}.

(** Thirty repositories, twenty-five of which match "api": every sixth one
    is a documentation repository that does not. *)
Definition sample_repository (i : nat) : repository :=
  {| repo_id := index_key i;
     repo_name := if (i mod 6 =? 5)%nat then "docs-" ++ index_key i
                  else "Billing-API-" ++ index_key i;
     repo_url := "https://dev.azure.com/acme/P/_git/" ++ index_key i;
     repo_defaultBranch := "refs/heads/main";
     repo_description := if (i mod 4 =? 0)%nat then Some "internal service" else None |}.

Definition sample_repositories : list repository := map sample_repository (seq 0 30).

Definition sample_listing_platform : list event -> request -> settled :=
  fun _ _ => ok_response (VObj [("count", num 30);
                                ("value", VArr (map repository_json sample_repositories))]).

(** A platform for [createBranch]: a repository whose default branch is
    [main], one commit, and a ref creation that succeeds. *)
Definition branch_platform : list event -> request -> settled :=
  fun _ rq =>
    match req_method rq with
    | GET =>
        if includes (req_url rq) "/commits?"
        then ok_response (VObj [("count", num 1);
                                ("value", VArr [VObj [("commitId", VStr "c0ffee")]])])
        else ok_response (VObj [("id", VStr "R");
                                ("defaultBranch", VStr "refs/heads/main")])
    | _ => ok_response (VObj [("value", VArr [VObj [("success", VBool true)]])])
    end.

(* ================================================================== *)
(** ** Further invariants: no retry, a bounded number of requests *)
(* ================================================================== *)

(** A rejected exchange, if any, is the last one of the list. *)
Definition final_rejection (news : list event) : Prop :=
  forall pre rq e post, news = (pre ++ (rq, Rejected e) :: post)%list -> post = [].

(** A computation that sends at most [n] requests, stops at the first
    rejected one and then throws. *)
Definition bounded {A : Type} (n : nat) (m : M A) : Prop :=
  forall tr, exists news,
    snd (m tr) = (tr ++ news)%list /\
    (List.length news <= n)%nat /\
    final_rejection news /\
    (forall rq e, In (rq, Rejected e) news -> exists x, fst (m tr) = Throw x).

(** The same for a dispatcher branch, which may turn the exception into a
    returned result. *)
Definition settles {A : Type} (n : nat) (m : M A) : Prop :=
  forall tr, exists news,
    snd (m tr) = (tr ++ news)%list /\
    (List.length news <= n)%nat /\
    final_rejection news.

Definition is_get (ev : event) : bool :=
  match req_method (fst ev) with
  | GET => true
  | _ => false
  end.

(** [branchName.startsWith('refs/heads/') ? branchName : `refs/heads/${branchName}`] *)
Definition qualified (branchName : string) : string :=
  if startsWith branchName "refs/heads/" then branchName
  else "refs/heads/" ++ branchName.

(** The [items] of a result page. *)
Definition page_items (page : value) : list value :=
  match prop page "items" with
  | Some (VArr items) => items
  | _ => []
  end.

Section Requests.

Context {W : World}.

Definition get_request (url : string) : request :=
  {| req_via := axios_create; req_method := GET;
     req_url := url; req_body := VUndefined |}.

Definition post_request (url : string) (body : value) : request :=
  {| req_via := axios_create; req_method := POST;
     req_url := url; req_body := body |}.

Definition put_request (url : string) (body : value) : request :=
  {| req_via := axios_create; req_method := PUT;
     req_url := url; req_body := body |}.

(** The address a read tool asks for, relative to the organisation URL. *)
Definition read_url (call : tool_call) : string :=
  let a := arg call in
  let repository := repo_path (a "project_id") (a "repository_id") in
  if name call =? "get_projects" then "_apis/projects?api-version=7.1"
  else if name call =? "get_repositories" then
    to_string (a "project_id") ++ "/_apis/git/repositories?api-version=7.1"
  else if name call =? "get_branches" then
    repository ++ "/refs?filter=heads&api-version=7.1"
  else if name call =? "get_commits" then
    repository ++ "/commits?searchCriteria.itemVersion.version="
      ++ to_string (a "branch") ++ "&api-version=7.1"
  else if name call =? "get_file_content" then
    repository ++ "/items?path=" ++ to_string (a "file_path")
      ++ "&versionDescriptor.version=" ++ to_string (a "branch")
      ++ "&api-version=7.1"
  else if name call =? "search_code" then
    repository ++ "/items?search=" ++ to_string (a "search_text")
      ++ "&api-version=7.1"
  else
    "_apis/graph/users?searchString=" ++ encodeURIComponent (to_string (a "query"))
      ++ "&api-version=7.1-preview.1&$top="
      ++ to_string (default_arg (a "top") (num 100)).

End Requests.

(** The tools whose branch sends a single GET. *)
Definition read_tools : list string :=
  ["get_projects"; "get_repositories"; "get_branches"; "get_commits";
   "get_file_content"; "search_code"; "search_users"].

(** The most requests one call of each operation sends. *)
Definition request_budget (op : operation) : nat :=
  match op with
  | CreateBranch _ _ _ _ | ForkRepository _ _ _ _ => 3
  | CreateOrUpdateFile _ _ _ _ _ _ | PushFiles _ _ _ _ _
  | SearchWorkItems _ _ _ _ _ _ => 2
  | _ => 1
  end.

(** Like [branch_platform], but the commit listing is rejected. *)
Definition commits_down_platform : list event -> request -> settled :=
  fun tr rq =>
    if includes (req_url rq) "/commits?" then Rejected not_found_error
    else branch_platform tr rq.

Section MoreRequests.

Context {W : World}.

(** The commit listing [createOrUpdateFile] and [getCommits] ask for. *)
Definition commits_request (projectId repositoryId branch : value) : request :=
  get_request (repo_path projectId repositoryId
                 ++ "/commits?searchCriteria.itemVersion.version="
                 ++ to_string branch ++ "&api-version=7.1").

Definition pushes_url (projectId repositoryId : value) : string :=
  repo_path projectId repositoryId ++ "/pushes?api-version=7.1".

Definition refs_url (projectId repositoryId : value) : string :=
  repo_path projectId repositoryId ++ "/refs?api-version=7.1".

End MoreRequests.

(** A platform whose commit listing is a bare array, the shape
    [createOrUpdateFile] reads. *)
Definition array_commits_platform : list event -> request -> settled :=
  fun _ rq =>
    match req_method rq with
    | GET => ok_response (VArr [VObj [("commitId", VStr "c0ffee")]])
    | _ => ok_response (VObj [("pushId", num 1)])
    end.

(** A platform whose commit listing is empty. *)
Definition no_commits_platform : list event -> request -> settled :=
  fun _ _ => ok_response (VObj [("count", num 0); ("value", VArr [])]).

(** The argument [files] of [pushFiles] as a list of [{path, content}]. *)
Definition file_json (path content : string) : value :=
  VObj [("path", VStr path); ("content", VStr content)].

Section BranchRequests.

Context {W : World}.

(** The ref update [updateBranch] posts. *)
Definition update_ref_request
  (projectId repositoryId : value) (branchName : string)
  (newCommitId oldCommitId : value) : request :=
  post_request (refs_url projectId repositoryId)
    (VObj [("name", VStr (qualified branchName));
           ("newObjectId", newCommitId);
           ("oldObjectId", oldCommitId)]).

(** The ref lookup of [getBranchRef]. *)
Definition branch_ref_request
  (projectId repositoryId : value) (branchName : string) : request :=
  get_request (repo_path projectId repositoryId ++ "/refs?filter="
                 ++ encodeURIComponent (qualified branchName)
                 ++ "&api-version=7.1").

End BranchRequests.

(** A platform that lists one ref. *)
Definition one_ref_platform : list event -> request -> settled :=
  fun _ _ =>
    ok_response (VObj [("count", num 1);
                       ("value", VArr [VObj [("name", VStr "refs/heads/main");
                                             ("objectId", VStr "c0ffee")]])]).

(** A listing in which one repository has no name. *)
Definition nameless_listing_platform : list event -> request -> settled :=
  fun _ _ =>
    ok_response (VObj [("value", VArr [repository_json (sample_repository 0);
                                       VObj [("id", VStr "x")]])]).

Section SearchRequests.

Context {W : World}.

(** The two requests of [searchWorkItems]. *)
Definition wiql_request (projectId query state type assignedTo top : value)
  : request :=
  post_request
    (to_string projectId ++ "/_apis/wit/wiql?api-version=7.1&$top="
       ++ to_string (default_arg top (num 100)))
    (VObj [("query", VStr (wiql projectId query state type assignedTo))]).

Definition work_items_request (ids : value) : request :=
  get_request ("_apis/wit/workitems?ids=" ++ to_string ids ++ "&api-version=7.1").

(** The requests of [forkRepository] after the read of the source. *)
Definition create_repository_request (projectId name description : value)
  : request :=
  post_request "_apis/git/repositories?api-version=7.1"
    (VObj [("name", name);
           ("project", VObj [("id", projectId)]);
           ("defaultBranch", VStr "main");
           ("description", description)]).

Definition fork_description (sourceRepo : value) : value :=
  VStr ("Fork of " ++ to_string (opt_prop sourceRepo "name") ++ ": "
          ++ to_string (or_else (opt_prop sourceRepo "description") (VStr ""))).

Definition import_request (targetProject newId sourceRepo : value) : request :=
  post_request (repo_path targetProject newId ++ "/importRequests?api-version=7.1")
    (VObj [("parameters",
            VObj [("gitSource",
                   VObj [("url", opt_prop sourceRepo "remoteUrl")])])]).

End SearchRequests.

(** A platform for [searchWorkItems]: the query finds three work items. *)
Definition work_items_platform : list event -> request -> settled :=
  fun _ rq =>
    match req_method rq with
    | POST => ok_response (VObj [("workItems",
                                  VArr [VObj [("id", num 11)]; VObj [("id", num 12)];
                                        VObj [("id", num 30)]])])
    | _ => ok_response (VObj [("count", num 3); ("value", VArr [])])
    end.

(** A platform for [forkRepository]: the source can be read, the copy is
    created, and the import is rejected. *)
Definition import_down_platform : list event -> request -> settled :=
  fun _ rq =>
    match req_method rq with
    | GET => ok_response (VObj [("id", VStr "R"); ("name", VStr "billing");
                                ("remoteUrl", VStr "https://dev.azure.com/acme/P/_git/billing")])
    | _ => if includes (req_url rq) "/importRequests?"
           then Rejected not_found_error
           else ok_response (VObj [("id", VStr "N"); ("name", VStr "copy")])
    end.

(* ================================================================== *)
(** ** Facts about the string primitives *)
(* ================================================================== *)

Lemma startsWith_iff (s p : string) :
  startsWith s p = true <-> exists post, s = p ++ post.
Proof.
  unfold startsWith. revert s.
  induction p as [|a p IH]; intros s.
  - split; [intros _; now exists s | intros _; now destruct s].
  - destruct s as [|b s]; simpl.
    + split; [discriminate | intros [post H]; discriminate].
    + destruct (ascii_dec a b) as [->|Hne].
      * rewrite IH. split; intros [post H]; exists post.
        -- now rewrite H.
        -- now injection H.
      * split; [discriminate | intros [post H]; injection H; congruence].
Qed.

Lemma includes_iff (s sub : string) :
  includes s sub = true <-> exists pre post, s = pre ++ sub ++ post.
Proof.
  induction s as [|c s IH]; cbn [includes]; rewrite orb_true_iff, startsWith_iff.
  - split.
    + intros [[post H]|H]; [|discriminate]. now exists "", post.
    + intros [pre [post H]]. left. destruct pre; simpl in H.
      * now exists post.
      * discriminate.
  - rewrite IH. split.
    + intros [[post H]|[pre [post H]]].
      * now exists "", post.
      * exists (String c pre), post. simpl. now rewrite H.
    + intros [pre [post H]]. destruct pre as [|c' pre]; simpl in H.
      * left. now exists post.
      * right. exists pre, post. now injection H.
Qed.

Lemma append_assoc (a b c : string) : (a ++ b) ++ c = a ++ b ++ c.
Proof. induction a; simpl; congruence. Qed.

Lemma includes_suffix (p s sub : string) :
  includes s sub = true -> includes (p ++ s) sub = true.
Proof.
  rewrite !includes_iff. intros [pre [post ->]].
  exists (p ++ pre), post. now rewrite append_assoc.
Qed.

Lemma includes_refl (s : string) : includes s s = true.
Proof.
  apply includes_iff. exists "", "". simpl.
  induction s; simpl; congruence.
Qed.

(* ================================================================== *)
(** ** Facts about the handler monad *)
(* ================================================================== *)

Lemma skipn_past {A : Type} (l r : list A) : skipn (List.length l) (l ++ r) = r.
Proof. induction l; simpl; auto. Qed.

Lemma emitted_app {A : Type} (m : M A) (tr news : list event) :
  snd (m tr) = (tr ++ news)%list -> emitted m tr = news.
Proof. unfold emitted. intros ->. apply skipn_past. Qed.

Section Framework.

Context {W : World}.

Lemma tidy_ret {A : Type} (a : A) : tidy (ret a).
Proof.
  intros tr. exists []. simpl. rewrite app_nil_r.
  repeat split; try contradiction; discriminate.
Qed.

Lemma tidy_type_error {A : Type} : tidy (@throw A TypeError).
Proof.
  intros tr. exists []. simpl. rewrite app_nil_r.
  repeat split; try contradiction. intros x [= <-]. auto.
Qed.

Lemma tidy_azure {A : Type} (s : string) : tidy (@throw A (AzureDevOpsError s)).
Proof.
  intros tr. exists []. simpl. rewrite app_nil_r.
  repeat split; try contradiction. intros x [= <-]. eauto.
Qed.

Lemma tidy_check {A : Type} (o : option A) : tidy (check o).
Proof. destruct o; [apply tidy_ret | apply tidy_type_error]. Qed.

Lemma tidy_send (meth : http_method) (url : string) (body : value) :
  tidy (send meth url body).
Proof.
  intros tr. unfold send. eexists. simpl. split; [reflexivity|]. split.
  - intros rq e [H|[]]. injection H as _ H. rewrite H. auto.
  - intros x. destruct (platform tr _); [discriminate|]. intros [= <-]. eauto.
Qed.

Lemma tidy_bind {A B : Type} (m : M A) (k : A -> M B) :
  tidy m -> (forall a, tidy (k a)) -> tidy (bind m k).
Proof.
  intros Hm Hk tr. unfold bind.
  destruct (Hm tr) as [n1 [G1 [R1 T1]]].
  destruct (m tr) as [[a|x] tr1]; simpl in *; subst tr1.
  - destruct (Hk a (tr ++ n1)%list) as [n2 [G2 [R2 T2]]].
    exists (n1 ++ n2)%list. rewrite G2, app_assoc. split; [reflexivity|].
    split; [|exact T2].
    intros rq e Hin. apply in_app_or in Hin. destruct Hin as [Hin|Hin].
    + destruct (R1 _ _ Hin); discriminate.
    + eauto.
  - exists n1. split; [reflexivity|]. split.
    + intros rq e Hin. destruct (R1 _ _ Hin) as [[= ->]|[= ->]]; auto.
    + intros x0 [= <-]. exact (T1 x eq_refl).
Qed.

Lemma guarded_tidy {A : Type} (m : M A) : guarded m -> tidy m.
Proof.
  intros H tr. destruct (H tr) as [news [G [R T]]].
  exists news. split; [exact G|]. split.
  - intros rq e Hin. right. eauto.
  - intros x Hx. destruct (T x Hx); auto.
Qed.

Lemma guarded_api_guard {A : Type} (body : M A) : tidy body -> guarded (api_guard body).
Proof.
  intros H tr. unfold api_guard, try_catch.
  destruct (H tr) as [news [G [R T]]]. exists news.
  destruct (body tr) as [[a|x] tr1]; simpl in *; subst tr1.
  - split; [reflexivity|]. split; [|discriminate].
    intros rq e Hin. destruct (R _ _ Hin); discriminate.
  - destruct (T x eq_refl) as [[e ->]|[[s ->]| ->]]; simpl;
      (split; [reflexivity|]); split.
    + intros rq e' Hin. destruct (R _ _ Hin) as [[= <-]|[=]]. reflexivity.
    + intros x [= <-]. unfold api_error. eauto.
    + intros rq e' Hin. destruct (R _ _ Hin) as [[=]|Heq]. exact Heq.
    + intros x [= <-]. eauto.
    + intros rq e' Hin. destruct (R _ _ Hin) as [[=]|[=]].
    + intros x [= <-]. auto.
Qed.

Lemma respond_rejected (operation : M value) :
  guarded operation ->
  forall tr, exists news,
    snd (respond operation tr) = (tr ++ news)%list /\
    (forall rq e, In (rq, Rejected e) news ->
       fst (respond operation tr)
       = Ok (failure (api_prefix ++ api_prefix ++ to_string (axios_detail e)))) /\
    (forall x, fst (respond operation tr) = Throw x -> x = TypeError) /\
    (forall x, fst (operation tr) = Throw x -> x <> TypeError ->
       exists s, x = AzureDevOpsError s /\
                 fst (respond operation tr) = Ok (failure (api_prefix ++ s))) /\
    (fst (operation tr) = Throw TypeError ->
       fst (respond operation tr) = Throw TypeError).
Proof.
  intros H tr. unfold respond, try_catch, bind.
  destruct (H tr) as [news [G [R T]]]. exists news.
  destruct (operation tr) as [[a|x] tr1]; simpl in *; subst tr1.
  - split; [reflexivity|]. split; [|split; [discriminate|split; discriminate]].
    intros rq e Hin. discriminate (R _ _ Hin).
  - destruct (T x eq_refl) as [[s ->]| ->]; simpl; (split; [reflexivity|]).
    + split; [|split; [discriminate|split; [|discriminate]]].
      * intros rq e Hin. injection (R _ _ Hin) as ->. reflexivity.
      * intros x [= <-] _. eauto.
    + split; [|split; [|split; [|reflexivity]]].
      * intros rq e Hin. discriminate (R _ _ Hin).
      * intros x [= <-]. reflexivity.
      * intros x [= <-] Hne. congruence.
Qed.

Lemma served_respond (operation : M value) : guarded operation -> served (respond operation).
Proof.
  intros H tr. destruct (respond_rejected _ H tr) as [news [G [R [T _]]]].
  exists news. split; [exact G|]. split; [|exact T].
  intros rq e Hin. eauto.
Qed.

Lemma served_respond_inline (body : M tool_result) :
  tidy body ->
  (forall tr s, fst (body tr) <> Throw (AzureDevOpsError s)) ->
  served (respond_inline body).
Proof.
  intros H Hna tr. unfold respond_inline, try_catch.
  destruct (H tr) as [news [G [R T]]]. exists news.
  specialize (Hna tr).
  destruct (body tr) as [[a|x] tr1]; simpl in *; subst tr1.
  - split; [reflexivity|]. split; [|discriminate].
    intros rq e Hin. destruct (R _ _ Hin); discriminate.
  - destruct (T x eq_refl) as [[e ->]|[[s ->]| ->]]; simpl.
    + split; [reflexivity|]. split; [eauto|discriminate].
    + exfalso. eapply Hna. reflexivity.
    + split; [reflexivity|]. split.
      * intros rq e Hin. destruct (R _ _ Hin); discriminate.
      * intros x [= <-]. reflexivity.
Qed.

End Framework.

(* ================================================================== *)
(** ** Every operation translates its axios errors *)
(* ================================================================== *)

Create HintDb handlers.

#[export] Hint Resolve tidy_ret tidy_check tidy_send tidy_type_error tidy_azure
  guarded_tidy : handlers.
#[export] Hint Extern 2 (tidy (bind _ _)) => apply tidy_bind; [|intro] : handlers.
#[export] Hint Extern 2 (tidy (if ?c then _ else _)) => destruct c : handlers.

Ltac guard_body :=
  cbv zeta; apply guarded_api_guard; auto 30 with handlers.

Section Guarded.

Context {W : World}.

Lemma getBranches_guarded p r : guarded (getBranches p r).
Proof. unfold getBranches. guard_body. Qed.

Lemma getDefaultBranch_guarded p r : guarded (getDefaultBranch p r).
Proof. unfold getDefaultBranch. guard_body. Qed.

Lemma getBranchRef_guarded p r b : guarded (getBranchRef p r b).
Proof. unfold getBranchRef. guard_body. Qed.

Lemma getLatestCommit_guarded p r b : guarded (getLatestCommit p r b).
Proof. unfold getLatestCommit. guard_body. Qed.

Local Hint Resolve getDefaultBranch_guarded getLatestCommit_guarded : handlers.

Lemma createBranch_guarded p r b f : guarded (createBranch p r b f).
Proof. unfold createBranch. guard_body. Qed.

Lemma updateBranch_guarded p r b n o : guarded (updateBranch p r b n o).
Proof. unfold updateBranch. guard_body. Qed.

Lemma getCommits_guarded p r b : guarded (getCommits p r b).
Proof. unfold getCommits. guard_body. Qed.

Lemma createPullRequest_guarded p r s t title d :
  guarded (createPullRequest p r s t title d).
Proof. unfold createPullRequest. guard_body. Qed.

Lemma getIssue_guarded p r i : guarded (getIssue p r i).
Proof. unfold getIssue. guard_body. Qed.

Lemma addIssueComment_guarded p r i c : guarded (addIssueComment p r i c).
Proof. unfold addIssueComment. guard_body. Qed.

Lemma getFileContent_guarded p r f b : guarded (getFileContent p r f b).
Proof. unfold getFileContent. guard_body. Qed.

Lemma createOrUpdateFile_guarded p r f c m b :
  guarded (createOrUpdateFile p r f c m b).
Proof. unfold createOrUpdateFile. guard_body. Qed.

Lemma pushFiles_guarded p r b f m : guarded (pushFiles p r b f m).
Proof. unfold pushFiles. guard_body. Qed.

Lemma createRepository_guarded p n d : guarded (createRepository p n d).
Proof. unfold createRepository. guard_body. Qed.

Local Hint Resolve createRepository_guarded : handlers.

Lemma searchRepositories_guarded p q page perPage :
  guarded (searchRepositories p q page perPage).
Proof. unfold searchRepositories. guard_body. Qed.

Lemma forkRepository_guarded p r n t : guarded (forkRepository p r n t).
Proof. unfold forkRepository. guard_body. Qed.

Lemma searchCode_guarded p r s f t : guarded (searchCode p r s f t).
Proof. unfold searchCode. guard_body. Qed.

Lemma searchWorkItems_guarded p q s ty a t : guarded (searchWorkItems p q s ty a t).
Proof. unfold searchWorkItems. guard_body. Qed.

Lemma searchUsers_guarded q t : guarded (searchUsers q t).
Proof. unfold searchUsers. guard_body. Qed.

Lemma perform_guarded (op : operation) : guarded (perform op).
Proof.
  destruct op; simpl;
    auto using getBranches_guarded, getDefaultBranch_guarded, getBranchRef_guarded,
      getLatestCommit_guarded, createBranch_guarded, updateBranch_guarded,
      getCommits_guarded, createPullRequest_guarded, getIssue_guarded,
      addIssueComment_guarded, getFileContent_guarded, createOrUpdateFile_guarded,
      pushFiles_guarded, createRepository_guarded, searchRepositories_guarded,
      forkRepository_guarded, searchCode_guarded, searchWorkItems_guarded,
      searchUsers_guarded.
Qed.

End Guarded.

(* ================================================================== *)
(** ** The dispatcher, branch by branch *)
(* ================================================================== *)

Create HintDb operations.

#[export] Hint Resolve getBranches_guarded getDefaultBranch_guarded
  getBranchRef_guarded getLatestCommit_guarded createBranch_guarded
  updateBranch_guarded getCommits_guarded createPullRequest_guarded
  getIssue_guarded addIssueComment_guarded getFileContent_guarded
  createOrUpdateFile_guarded pushFiles_guarded createRepository_guarded
  searchRepositories_guarded forkRepository_guarded searchCode_guarded
  searchWorkItems_guarded searchUsers_guarded : operations.

Section Dispatch.

Context {W : World}.

Lemma inline_never_azure (url : string) (tr : list event) (s : string) :
  fst ((response <- send GET url VUndefined ;;
        listed <- check (prop (data response) "value") ;;
        ret (success (JSON_stringify listed))) tr)
  <> Throw (AzureDevOpsError s).
Proof.
  unfold bind, send. destruct (platform tr _) as [r|e]; simpl; [|discriminate].
  destruct (prop (data r) "value"); simpl; discriminate.
Qed.

Lemma dispatch_known (t : tool_descriptor) :
  In t catalog ->
  exists msg,
    forallb (fun k => includes msg k) (required t) = true /\
    forall call, name call = tool_name t ->
      if fails_validation t call then call_tool call = invalid msg
      else served (call_tool call) /\
           (In (tool_name t) operation_tools ->
            exists operation, guarded operation /\ call_tool call = respond operation).
Proof.
  intros Hin. simpl in Hin.
  repeat (destruct Hin as [<-|Hin]); [..|contradiction];
    (eexists; split; cycle 1;
     [ intros call Hn; unfold call_tool, fails_validation; rewrite Hn;
       cbn -[missing arg respond respond_inline invalid includes served
             operation_tools send];
       repeat match goal with
              | |- context [missing ?v] => destruct (missing v)
              end;
       cbn -[respond respond_inline invalid includes served operation_tools send]
     | ]).
  all: try reflexivity.
  all: split;
    [ first [ apply served_respond; auto with operations
            | apply served_respond_inline;
              [ auto 30 with handlers | intros; apply inline_never_azure ] ]
    | first [ intros _; eexists; split; [|reflexivity]; solve [auto with operations]
            | intros H; simpl in H; exfalso; intuition discriminate ] ].
  Unshelve. exact "".
Qed.

Lemma dispatch_unknown (call : tool_call) :
  ~ In (name call) catalog_names ->
  call_tool call = throw (McpError MethodNotFound ("Unknown tool: " ++ name call)).
Proof.
  intros H. unfold call_tool.
  repeat match goal with
         | |- context [name call =? ?lit] =>
             destruct (String.eqb_spec (name call) lit) as [E|_];
             [exfalso; apply H; rewrite E; simpl; auto 20|]
         end.
  reflexivity.
Qed.

Lemma known_descriptor (n : string) :
  In n catalog_names -> exists t, In t catalog /\ n = tool_name t.
Proof.
  unfold catalog_names. rewrite in_map_iff. intros [t [Ht Hin]]. eauto.
Qed.

Lemma operation_tools_known (n : string) :
  In n operation_tools -> In n catalog_names.
Proof. unfold operation_tools. rewrite filter_In. tauto. Qed.

Lemma fails_validation_intro (t : tool_descriptor) (call : tool_call) (k : string) :
  In k (required t) -> truthy (arg call k) = false -> fails_validation t call = true.
Proof.
  intros Hk Hv. unfold fails_validation. apply existsb_exists.
  exists k. unfold missing. now rewrite Hv.
Qed.

Lemma invalid_run (call : tool_call) (msg : string) (tr : list event) :
  call_tool call = invalid msg ->
  call_tool call tr = (Throw (McpError InvalidParams msg), tr).
Proof. intros ->. reflexivity. Qed.

Lemma respond_log (operation : M value) (tr : list event) :
  snd (respond operation tr) = snd (operation tr).
Proof.
  unfold respond, try_catch, bind.
  destruct (operation tr) as [[a|x] tr1]; simpl; [reflexivity|].
  destruct x; reflexivity.
Qed.

Lemma respond_azure (operation : M value) (tr : list event) (s : string) :
  fst (operation tr) = Throw (AzureDevOpsError s) ->
  fst (respond operation tr) = Ok (failure (api_prefix ++ s)).
Proof.
  unfold respond, try_catch, bind.
  destruct (operation tr) as [[a|x] tr1]; simpl; [discriminate|].
  now intros [= ->].
Qed.

(** A rejected exchange in a tool that goes through [operations/*.ts]:
    the branch is [respond] around an operation that has translated it. *)
Lemma operation_tool_rejected (call : tool_call) (tr : list event)
      (rq : request) (e : axios_error) :
  In (name call) operation_tools ->
  In (rq, Rejected e) (emitted (call_tool call) tr) ->
  exists operation,
    guarded operation /\
    call_tool call = respond operation /\
    fst (operation tr) = Throw (api_error e).
Proof.
  intros Hop Hin.
  destruct (known_descriptor _ (operation_tools_known _ Hop)) as [t [Ht Hn]].
  destruct (dispatch_known t Ht) as [msg [_ H]]. specialize (H call Hn).
  destruct (fails_validation t call).
  - rewrite H in Hin. unfold emitted, invalid, throw in Hin. simpl in Hin.
    rewrite skipn_all in Hin. contradiction.
  - destruct H as [_ H]. rewrite <- Hn in H.
    destruct (H Hop) as [operation [Hg Heq]]. exists operation.
    split; [exact Hg|]. split; [exact Heq|]. rewrite Heq in Hin.
    destruct (Hg tr) as [news [G [R _]]].
    unfold emitted in Hin. rewrite respond_log, G, skipn_past in Hin.
    eauto.
Qed.

(** A TypeError raised inside an operation is not caught on the way out. *)
Lemma type_error_escapes (call : tool_call) (tr : list event) (operation : M value) :
  guarded operation ->
  call_tool call = respond operation ->
  fst (operation tr) = Throw TypeError ->
  fst (call_tool call tr) = Throw TypeError.
Proof.
  intros Hg -> H.
  destruct (respond_rejected _ Hg tr) as [_ [_ [_ [_ [_ T]]]]]. auto.
Qed.

End Dispatch.

(* ================================================================== *)
(** ** Validation and dispatch *)
(* ================================================================== *)

(** C5: for every tool of the catalog there is one message, naming each of
    the tool's required arguments, such that every invocation leaving out a
    required argument throws [McpError(InvalidParams, message)] with the log
    of HTTP exchanges untouched: no request has been sent. *)
Theorem missing_argument_is_invalid_params {W : World} (t : tool_descriptor) :
  In t catalog ->
  exists msg,
    forallb (fun k => includes msg k) (required t) = true /\
    forall (call : tool_call) (k : string) (tr : list event),
      name call = tool_name t ->
      In k (required t) ->
      supplied call k = None ->
      call_tool call tr = (Throw (McpError InvalidParams msg), tr) /\
      emitted (call_tool call) tr = [].
Proof.
  intros Ht. destruct (dispatch_known t Ht) as [msg [Hmsg H]].
  exists msg. split; [exact Hmsg|].
  intros call k tr Hn Hk Habsent. specialize (H call Hn).
  assert (Hv : truthy (arg call k) = false).
  { unfold arg, own. unfold supplied in Habsent.
    destruct (arguments call); [rewrite Habsent|]; reflexivity. }
  rewrite (fails_validation_intro t call k Hk Hv) in H.
  split; [now apply invalid_run|].
  unfold emitted. rewrite (invalid_run _ _ tr H). simpl. apply skipn_all.
Qed.

Lemma missing_argument_is_invalid_params_witness :
  exists msg,
    includes msg "branch" = true /\
    @call_tool (mock_world quiet_platform)
      {| name := "create_branch";
         arguments := Some [("project_id", VStr "P"); ("repository_id", VStr "R")] |}
      []
    = (Throw (McpError InvalidParams msg), []).
Proof.
  destruct (@missing_argument_is_invalid_params (mock_world quiet_platform)
              {| tool_name := "create_branch";
                 tool_description := "Create a new branch in a repository";
                 required := ["project_id"; "repository_id"; "branch"] |})
    as [msg [Hmsg H]].
  - simpl. auto 20.
  - exists msg. split.
    + simpl in Hmsg. rewrite !andb_true_iff in Hmsg. tauto.
    + apply (H _ "branch" []); [reflexivity | simpl; auto | reflexivity].
Defined.

(** C6: a name outside the catalog is answered, whatever the arguments, by
    [McpError(MethodNotFound, "Unknown tool: <name>")] without any request
    being sent; and a name of the catalog is never answered that way, so a
    near miss of a catalog name dispatches nowhere. *)
Theorem unknown_tool_is_method_not_found {W : World}
        (call : tool_call) (tr : list event) :
  (~ In (name call) catalog_names ->
   call_tool call tr
   = (Throw (McpError MethodNotFound ("Unknown tool: " ++ name call)), tr)) /\
  (In (name call) catalog_names ->
   forall msg, fst (call_tool call tr) <> Throw (McpError MethodNotFound msg)).
Proof.
  split.
  - intros H. now rewrite (dispatch_unknown call H).
  - intros H msg Hthrow.
    destruct (known_descriptor _ H) as [t [Ht Hn]].
    destruct (dispatch_known t Ht) as [m [_ Hd]]. specialize (Hd call Hn).
    destruct (fails_validation t call).
    + rewrite Hd in Hthrow. discriminate.
    + destruct Hd as [Hs _]. destruct (Hs tr) as [news [_ [_ T]]].
      discriminate (T _ Hthrow).
Qed.

Lemma unknown_tool_is_method_not_found_witness :
  @call_tool (mock_world quiet_platform)
    {| name := "create_branc";
       arguments := Some [("project_id", VStr "P"); ("repository_id", VStr "R");
                          ("branch", VStr "feature-x")] |} []
  = (Throw (McpError MethodNotFound "Unknown tool: create_branc"), []).
Proof.
  apply (@unknown_tool_is_method_not_found (mock_world quiet_platform)).
  simpl. intuition discriminate.
Defined.

(** C9: the required-argument check tests truthiness, not presence: an
    invocation that supplies a required argument as the empty string is
    rejected with the very [InvalidParams] error, and the same untouched
    log, as the invocation from which that key has been deleted. *)
Theorem empty_string_counts_as_missing {W : World}
        (t : tool_descriptor) (call : tool_call)
        (fields : list (string * value)) (k : string) (tr : list event) :
  In t catalog ->
  name call = tool_name t ->
  In k (required t) ->
  arguments call = Some fields ->
  assoc k fields = Some (VStr "") ->
  let without := {| name := name call; arguments := Some (remove_key k fields) |} in
  supplied call k = Some (VStr "") /\
  supplied without k = None /\
  exists msg,
    call_tool call tr = (Throw (McpError InvalidParams msg), tr) /\
    call_tool without tr = (Throw (McpError InvalidParams msg), tr).
Proof.
  intros Ht Hn Hk Hargs Hempty without.
  assert (Hgone : assoc k (remove_key k fields) = None).
  { clear. induction fields as [|[k' v] rest IH]; simpl; [reflexivity|].
    destruct (String.eqb_spec k' k); simpl; [exact IH|].
    destruct (String.eqb_spec k' k); [contradiction|exact IH]. }
  split; [unfold supplied; now rewrite Hargs|].
  split; [exact Hgone|].
  destruct (dispatch_known t Ht) as [msg [_ H]]. exists msg. split.
  - specialize (H call Hn).
    rewrite (fails_validation_intro t call k Hk) in H; [now apply invalid_run|].
    unfold arg, own. now rewrite Hargs, Hempty.
  - specialize (H without Hn).
    rewrite (fails_validation_intro t without k Hk) in H; [now apply invalid_run|].
    unfold arg, own. simpl. now rewrite Hgone.
Qed.

Lemma empty_string_counts_as_missing_witness :
  exists msg,
    @call_tool (mock_world quiet_platform)
      {| name := "update_branch";
         arguments := Some [("project_id", VStr "P"); ("repository_id", VStr "R");
                            ("branch", VStr ""); ("new_commit_id", VStr "a1");
                            ("old_commit_id", VStr "b2")] |} []
    = (Throw (McpError InvalidParams msg), []) /\
    @call_tool (mock_world quiet_platform)
      {| name := "update_branch";
         arguments := Some [("project_id", VStr "P"); ("repository_id", VStr "R");
                            ("new_commit_id", VStr "a1");
                            ("old_commit_id", VStr "b2")] |} []
    = (Throw (McpError InvalidParams msg), []).
Proof.
  refine (proj2 (proj2
    (@empty_string_counts_as_missing (mock_world quiet_platform)
       {| tool_name := "update_branch";
          tool_description :=
            "Update an existing branch to point to a new commit";
          required := ["project_id"; "repository_id"; "branch";
                       "new_commit_id"; "old_commit_id"] |}
       {| name := "update_branch";
          arguments := Some [("project_id", VStr "P"); ("repository_id", VStr "R");
                             ("branch", VStr ""); ("new_commit_id", VStr "a1");
                             ("old_commit_id", VStr "b2")] |}
       [("project_id", VStr "P"); ("repository_id", VStr "R");
        ("branch", VStr ""); ("new_commit_id", VStr "a1");
        ("old_commit_id", VStr "b2")]
       "branch" [] _ eq_refl _ eq_refl eq_refl))); simpl; auto 20.
Defined.

(* ================================================================== *)
(** ** Error translation *)
(* ================================================================== *)

Lemma detail_of_body_message (e : axios_error) (r : response) (m : value) :
  err_response e = Some r ->
  prop (data r) "message" = Some m ->
  nullish m = false ->
  axios_detail e = m.
Proof.
  intros Hr Hm Hn. unfold axios_detail, opt_prop, coalesce.
  now rewrite Hr, Hm, Hn.
Qed.

Lemma api_guard_passes {W : World} {A : Type}
      (body : M A) (tr tr' : list event) (x : exn) :
  body tr = (Throw x, tr') ->
  (forall e, x <> AxiosError e) ->
  api_guard body tr = (Throw x, tr').
Proof.
  intros H Hx. unfold api_guard, try_catch. rewrite H.
  destruct x; try reflexivity. now destruct (Hx e).
Qed.





(** C4: the platform's own message does not reach the client through the
    two handlers written inline in the dispatcher.  Against a platform that
    answers 404 with the body [{ message: "not found" }], [get_projects] and
    [get_repositories] send their one GET and return an error result whose
    text is the prefixed message of the axios error, "Request failed with
    status code 404", in which "not found" does not occur: their [catch]
    blocks never look at the response body.  The same answer given to
    [get_branches], which goes through [operations/branches.ts], comes back
    with the body's message in the text. *)
Theorem inline_handlers_drop_the_body_message :
  let W := mock_world not_found_platform in
  let reported := "Azure DevOps API error: Request failed with status code 404" in
  let repository := Some [("project_id", VStr "P"); ("repository_id", VStr "R")] in
  @call_tool W {| name := "get_projects"; arguments := None |} []
  = (Ok {| text := VStr reported; isError := true |},
     [(@get_request W "_apis/projects?api-version=7.1", Rejected not_found_error)]) /\
  @call_tool W {| name := "get_repositories"; arguments := repository |} []
  = (Ok {| text := VStr reported; isError := true |},
     [(@get_request W "P/_apis/git/repositories?api-version=7.1",
       Rejected not_found_error)]) /\
  includes reported "not found" = false /\
  err_response not_found_error
  = Some {| status := 404; data := VObj [("message", VStr "not found")] |} /\
  @call_tool W {| name := "get_branches"; arguments := repository |} []
  = (Ok {| text := VStr "Azure DevOps API error: Azure DevOps API error: not found";
           isError := true |},
     [(@get_request W "P/_apis/git/repositories/R/refs?filter=heads&api-version=7.1",
       Rejected not_found_error)]).
Proof.
  intros W reported repository.
  split; [reflexivity|]. split; [reflexivity|]. split; [reflexivity|].
  split; reflexivity.
Qed.




(* ================================================================== *)
(** ** Reading a file twice *)
(* ================================================================== *)

Lemma getFileContent_same_answers {W : World}
      (p r f b : value) (tr1 tr2 : list event) :
  (forall rq, platform tr1 rq = platform tr2 rq) ->
  fst (getFileContent p r f b tr1) = fst (getFileContent p r f b tr2).
Proof.
  intros H. unfold getFileContent, api_guard, try_catch, bind, send.
  rewrite H. destruct (platform tr2 _); reflexivity.
Qed.

Lemma get_file_content_same_answers {W : World}
      (call : tool_call) (tr1 tr2 : list event) :
  name call = "get_file_content" ->
  (forall rq, platform tr1 rq = platform tr2 rq) ->
  fst (call_tool call tr1) = fst (call_tool call tr2).
Proof.
  intros Hn H. unfold call_tool. rewrite Hn.
  cbn -[missing arg respond invalid getFileContent].
  destruct (_ || _); [reflexivity|].
  pose proof (getFileContent_same_answers
                (arg call "project_id") (arg call "repository_id")
                (arg call "file_path") (arg call "branch") tr1 tr2 H) as E.
  unfold respond, try_catch, bind.
  destruct (getFileContent _ _ _ _ tr1) as [[a1|x1] l1],
           (getFileContent _ _ _ _ tr2) as [[a2|x2] l2];
    simpl in E; try discriminate; injection E as <-; [reflexivity|].
  destruct x1; reflexivity.
Qed.

(** C7: when the platform answers after a [get_file_content] invocation as
    it did before it, issuing the same invocation again yields the same
    result, for the tool and for the operation behind it: the outcome is a
    function of the arguments and of the platform's answer alone. *)
Theorem get_file_content_twice {W : World}
        (call : tool_call) (p r f b : value) (tr : list event) :
  name call = "get_file_content" ->
  (forall rq, platform (snd (call_tool call tr)) rq = platform tr rq) ->
  (forall rq, platform (snd (getFileContent p r f b tr)) rq = platform tr rq) ->
  fst (call_tool call (snd (call_tool call tr))) = fst (call_tool call tr) /\
  fst (getFileContent p r f b (snd (getFileContent p r f b tr)))
  = fst (getFileContent p r f b tr).
Proof.
  intros Hn H1 H2. split.
  - now apply get_file_content_same_answers.
  - now apply getFileContent_same_answers.
Qed.

(** A platform that serves one file, whatever happened before. *)
Lemma get_file_content_twice_witness :
  let W := mock_world (fun _ _ => ok_response (VStr "# Readme")) in
  let call := {| name := "get_file_content";
                 arguments := Some [("project_id", VStr "P");
                                    ("repository_id", VStr "R");
                                    ("file_path", VStr "/README.md");
                                    ("branch", VStr "main")] |} in
  fst (@call_tool W call (snd (@call_tool W call []))) = fst (@call_tool W call [])
  /\ fst (@call_tool W call []) = Ok {| text := VStr "# Readme"; isError := false |}.
Proof.
  intros W call. split; [|reflexivity].
  apply (@get_file_content_twice W call (VStr "P") (VStr "R")
           (VStr "/README.md") (VStr "main") []);
    [reflexivity | intros rq; reflexivity | intros rq; reflexivity].
Defined.

(* ================================================================== *)
(** ** Startup *)
(* ================================================================== *)

(** C8: when either credential is absent from the environment, module
    initialization throws and no step of [run()] happens: no server is
    constructed.  Conversely a server is only ever constructed with both
    credentials present and non-empty. *)
Theorem startup_requires_credentials {W : World} :
  (env "AZURE_DEVOPS_ORG_URL" = None \/ env "AZURE_DEVOPS_API_TOKEN" = None ->
   startup = (Throw (JsError credentials_required), [])) /\
  (In ServerConstructed (snd startup) ->
   exists url token,
     env "AZURE_DEVOPS_ORG_URL" = Some url /\
     env "AZURE_DEVOPS_API_TOKEN" = Some token /\
     url <> "" /\ token <> "").
Proof.
  unfold startup, ORG_URL, API_TOKEN, process_env. split.
  - intros [H|H]; rewrite H; simpl; [reflexivity|].
    now rewrite orb_true_r.
  - destruct (env "AZURE_DEVOPS_ORG_URL") as [url|]; simpl; [|contradiction].
    destruct (env "AZURE_DEVOPS_API_TOKEN") as [token|]; simpl;
      [|rewrite orb_true_r; contradiction].
    destruct (String.eqb_spec url ""); simpl; [contradiction|].
    destruct (String.eqb_spec token ""); simpl; [contradiction|].
    intros _. exists url, token. auto.
Qed.

Lemma startup_requires_credentials_witness :
  @startup tokenless_world = (Throw (JsError credentials_required), []).
Proof.
  apply (proj1 (@startup_requires_credentials tokenless_world)).
  right. reflexivity.
Defined.

(* ================================================================== *)
(** ** Creating a branch from the default branch *)
(* ================================================================== *)

Section CreateBranch.

Context {W : World}.

Lemma getDefaultBranch_run (p r : value) (tr : list event) :
  getDefaultBranch p r tr
  = (match platform tr (default_branch_request p r) with
     | Resolved r1 =>
         match prop (data r1) "defaultBranch" with
         | Some v => Ok v
         | None => Throw TypeError
         end
     | Rejected e => Throw (api_error e)
     end,
     (tr ++ [(default_branch_request p r,
              platform tr (default_branch_request p r))])%list).
Proof.
  unfold getDefaultBranch, api_guard, try_catch, bind, send.
  fold (default_branch_request p r).
  destruct (platform tr _) as [r1|e]; simpl; [|reflexivity].
  destruct (prop (data r1) "defaultBranch"); reflexivity.
Qed.

Lemma getLatestCommit_log (p r branch : value) (tr : list event) :
  snd (getLatestCommit p r branch tr)
  = (tr ++ [(latest_commit_request p r branch,
             platform tr (latest_commit_request p r branch))])%list.
Proof.
  unfold getLatestCommit, api_guard, try_catch, bind, send.
  fold (latest_commit_request p r branch).
  destruct (platform tr _) as [r2|e]; simpl; [|reflexivity].
  destruct (prop (data r2) "value") as [found|]; simpl; [|reflexivity].
  destruct (none_listed found); simpl; [reflexivity|].
  destruct (first found) as [head|]; simpl; [|reflexivity].
  destruct (prop head "commitId"); reflexivity.
Qed.

Lemma getLatestCommit_ok (p r branch c : value) (tr tr' : list event) :
  getLatestCommit p r branch tr = (Ok c, tr') ->
  exists r2 found head,
    platform tr (latest_commit_request p r branch) = Resolved r2 /\
    prop (data r2) "value" = Some found /\
    none_listed found = false /\
    first found = Some head /\
    prop head "commitId" = Some c.
Proof.
  unfold getLatestCommit, api_guard, try_catch, bind, send.
  fold (latest_commit_request p r branch).
  destruct (platform tr _) as [r2|e] eqn:Hp; simpl; [|discriminate].
  destruct (prop (data r2) "value") as [found|] eqn:Hv; simpl; [|discriminate].
  destruct (none_listed found) eqn:Hn; simpl; [discriminate|].
  destruct (first found) as [head|] eqn:Hf; simpl; [|discriminate].
  destruct (prop head "commitId") as [c'|] eqn:Hc; simpl; [|discriminate].
  intros [= <- _]. exists r2, found, head. repeat split; assumption.
Qed.

(** [createBranch] without a source branch, step by step. *)
Lemma createBranch_run (p r b : value) (tr : list event) :
  createBranch p r b VUndefined tr
  = match getDefaultBranch p r tr with
    | (Throw x, tr1) => (Throw x, tr1)
    | (Ok v, tr1) =>
        match call_replace v "refs/heads/" "" with
        | None => (Throw TypeError, tr1)
        | Some source =>
            match getLatestCommit p r source tr1 with
            | (Throw x, tr2) => (Throw x, tr2)
            | (Ok c, tr2) =>
                let out := platform tr2 (create_ref_request p r b c) in
                (match out with
                 | Rejected e => Throw (api_error e)
                 | Resolved r3 =>
                     match prop (data r3) "value" with
                     | None => Throw TypeError
                     | Some updated =>
                         match first updated with
                         | None => Throw TypeError
                         | Some created => Ok created
                         end
                     end
                 end, (tr2 ++ [(create_ref_request p r b c, out)])%list)
            end
        end
    end.
Proof.
  unfold createBranch, api_guard at 1, try_catch at 1. cbn [truthy].
  unfold bind at 1 2 3.
  destruct (getDefaultBranch_guarded p r tr) as [_ [_ [_ T1]]].
  destruct (getDefaultBranch p r tr) as [[v|x] tr1]; simpl in *.
  - destruct (call_replace v "refs/heads/" "") as [source|]; simpl; [|reflexivity].
    destruct (getLatestCommit_guarded p r source tr1) as [_ [_ [_ T2]]].
    destruct (getLatestCommit p r source tr1) as [[c|x] tr2]; simpl in *.
    + unfold bind, send. fold (create_ref_request p r b c).
      destruct (platform tr2 _) as [r3|e]; simpl; [|reflexivity].
      destruct (prop (data r3) "value") as [updated|]; simpl; [|reflexivity].
      destruct (first updated); reflexivity.
    + destruct (T2 x eq_refl) as [[s ->]| ->]; reflexivity.
  - destruct (T1 x eq_refl) as [[s ->]| ->]; reflexivity.
Qed.

End CreateBranch.

Lemma emitted_exact {A : Type} (m : M A) (tr news : list event) (res : result A) :
  m tr = (res, (tr ++ news)%list) -> emitted m tr = news.
Proof. intros H. apply emitted_app. now rewrite H. Qed.

Lemma create_branch_tool_log {W : World} (call : tool_call) (tr : list event) :
  name call = "create_branch" ->
  truthy (arg call "project_id") = true ->
  truthy (arg call "repository_id") = true ->
  truthy (arg call "branch") = true ->
  supplied call "from_branch" = None ->
  emitted (call_tool call) tr
  = emitted (createBranch (arg call "project_id") (arg call "repository_id")
               (arg call "branch") VUndefined) tr.
Proof.
  intros Hn Hp Hr Hb Hf.
  assert (Hu : arg call "from_branch" = VUndefined).
  { unfold arg, own. unfold supplied in Hf.
    destruct (arguments call); [now rewrite Hf | reflexivity]. }
  unfold emitted. f_equal.
  unfold call_tool. rewrite Hn.
  cbn -[missing arg respond invalid createBranch].
  unfold missing. rewrite Hp, Hr, Hb, Hu. cbn [negb orb].
  apply respond_log.
Qed.



(* ================================================================== *)
(** ** Searching repositories *)
(* ================================================================== *)

Lemma includes_empty (s : string) : includes s "" = true.
Proof. apply includes_iff. now exists "", s. Qed.

Lemma includes_in_empty (sub : string) : includes "" sub = true -> sub = "".
Proof.
  rewrite includes_iff. intros [pre [post H]].
  destruct pre; simpl in H; [|discriminate]. destruct sub; [reflexivity|discriminate].
Qed.

Lemma repo_matches_json {W : World} (query : string) (x : repository) :
  repo_matches query (repository_json x) = Some (keeps query x).
Proof.
  unfold repo_matches, keeps, repository_json, opt_prop.
  cbn [prop own assoc app String.eqb Ascii.eqb Bool.eqb call_toLowerCase].
  destruct (includes (toLowerCase (repo_name x)) (toLowerCase query)) eqn:Hname;
    [reflexivity|].
  destruct (repo_description x) as [d|];
    cbn [prop own assoc app String.eqb Ascii.eqb Bool.eqb call_toLowerCase truthy orb];
    [|reflexivity].
  destruct (String.eqb_spec d "") as [->|_]; cbn [negb]; [|reflexivity].
  destruct (includes (toLowerCase "") (toLowerCase query)) eqn:He; [|reflexivity].
  change (toLowerCase "") with "" in He. apply includes_in_empty in He. rewrite He, includes_empty in Hname. discriminate.
Qed.

Lemma filter_listing {W : World} (query : string) (repos : list repository) :
  filter_opt (repo_matches query) (map repository_json repos)
  = Some (map repository_json (filter (keeps query) repos)).
Proof.
  induction repos as [|x rest IH]; [reflexivity|].
  cbn [map filter_opt filter]. rewrite repo_matches_json, IH.
  now destruct (keeps query x).
Qed.

Lemma slice_map {A B : Type} (f : A -> B) (xs : list A) (s e : Z) :
  slice (map f xs) s e = map f (slice xs s e).
Proof. unfold slice. now rewrite length_map, skipn_map, firstn_map. Qed.

Lemma slice_is_window {A : Type} (xs : list A) (page perPage : Z) :
  (1 <= page)%Z -> (0 <= perPage)%Z ->
  slice xs ((page - 1) * perPage) ((page - 1) * perPage + perPage)
  = page_window xs page perPage.
Proof.
  intros Hp Hq. unfold slice, page_window, clamp_index.
  set (s := ((page - 1) * perPage)%Z). set (len := Z.of_nat (List.length xs)).
  assert (Hs : (0 <= s)%Z) by (subst s; nia).
  destruct (Z.ltb_spec s 0); [lia|].
  destruct (Z.ltb_spec (s + perPage) 0); [lia|].
  destruct (Z_le_gt_dec len s) as [Hle|Hgt].
  - rewrite (skipn_all2 (n := Z.to_nat (Z.min s len))) by (subst len; lia).
    rewrite (skipn_all2 (n := Z.to_nat s)) by (subst len; lia).
    now rewrite !firstn_nil.
  - replace (Z.min s len) with s by lia.
    destruct (Z_le_gt_dec (s + perPage) len) as [Hin|Hout].
    + replace (Z.min (s + perPage) len - s)%Z with perPage by lia. reflexivity.
    + replace (Z.min (s + perPage) len - s)%Z with (len - s)%Z by lia.
      rewrite !firstn_all2; [reflexivity| |]; rewrite length_skipn; subst len; lia.
Qed.

Lemma ceil_div_pages (a b : Z) :
  (0 <= a)%Z -> (1 <= b)%Z ->
  ceil_div a b = Int ((a + b - 1) / b) /\
  (((a + b - 1) / b - 1) * b < a <= (a + b - 1) / b * b)%Z.
Proof.
  intros Ha Hb. unfold ceil_div.
  destruct (Z.eqb_spec b 0); [lia|].
  pose proof (Z.div_mod (a + b - 1) b ltac:(lia)) as D.
  pose proof (Z.mod_pos_bound (a + b - 1) b ltac:(lia)) as M.
  split; [|nia]. f_equal.
  pose proof (Z.div_mod (- a) b ltac:(lia)) as D'.
  pose proof (Z.mod_pos_bound (- a) b ltac:(lia)) as M'.
  nia.
Qed.

Lemma page_window_nth {A : Type} (xs : list A) (page perPage : Z) (i : nat) :
  (Z.of_nat i < perPage)%Z ->
  nth_error (page_window xs page perPage) i
  = nth_error xs (Z.to_nat ((page - 1) * perPage) + i).
Proof.
  intros Hi. unfold page_window.
  rewrite nth_error_firstn, nth_error_skipn.
  destruct (Nat.ltb_spec i (Z.to_nat perPage)); [reflexivity|lia].
Qed.




(* ================================================================== *)
(** ** Remarks on the two inline handlers and on unregistered operations *)
(* ================================================================== *)

(** [get_projects] and [get_repositories] do not go through
    [operations/*.ts]: they report the axios error's own message, once
    prefixed, and never look at the response body. *)
Example inline_handler_reports_axios_message :
  fst (@call_tool (mock_world not_found_platform)
         {| name := "get_projects"; arguments := None |} [])
  = Ok {| text := VStr "Azure DevOps API error: Request failed with status code 404";
          isError := true |}.
Proof. reflexivity. Qed.

(** [searchRepositories] is exported by [repository.ts] but no branch of the
    dispatcher calls it and the catalog does not list it. *)
Example search_repositories_is_not_dispatched :
  ~ In "search_repositories" catalog_names /\
  fst (@call_tool (mock_world sample_listing_platform)
         {| name := "search_repositories";
            arguments := Some [("project_id", VStr "P"); ("query", VStr "api")] |} [])
  = Throw (McpError MethodNotFound "Unknown tool: search_repositories").
Proof. split; [simpl; intuition discriminate | reflexivity]. Qed.

(** Outside the domain of page numbers, [slice] counts a negative start
    from the end of the filtered list. *)
Example negative_page_wraps_around :
  slice [1; 2; 3; 4; 5]%Z ((-1 - 1) * 2) ((-1 - 1) * 2 + 2) = [2; 3]%Z.
Proof. reflexivity. Qed.

(* ================================================================== *)
(** ** No retry and a bounded number of requests *)
(* ================================================================== *)

Lemma rejection_after_clean (l1 l2 pre post : list event) (rq : request) (e : axios_error) :
  (forall rq' e', ~ In (rq', Rejected e') l1) ->
  (l1 ++ l2 = pre ++ (rq, Rejected e) :: post)%list ->
  exists pre', pre = (l1 ++ pre')%list /\ l2 = (pre' ++ (rq, Rejected e) :: post)%list.
Proof.
  revert pre. induction l1 as [|a l1 IH]; intros pre Hclean H; simpl in *.
  - now exists pre.
  - destruct pre as [|b pre]; simpl in H.
    + injection H as -> _. exfalso. eapply Hclean. left. reflexivity.
    + injection H as -> H.
      destruct (IH pre) as [pre' [-> ->]]; [|exact H|now exists pre'].
      intros rq' e' Hin. eapply Hclean. right. exact Hin.
Qed.

Section Bounds.

Context {W : World}.

Lemma final_rejection_nil : final_rejection [].
Proof. intros pre rq e post H. destruct pre; discriminate. Qed.

Lemma bounded_ret {A : Type} (a : A) : bounded 0 (ret a).
Proof.
  intros tr. exists []. simpl. rewrite app_nil_r.
  split; [reflexivity|]. split; [lia|]. split; [apply final_rejection_nil|].
  intros rq e [].
Qed.

Lemma bounded_throw {A : Type} (x : exn) : bounded 0 (@throw A x).
Proof.
  intros tr. exists []. simpl. rewrite app_nil_r.
  split; [reflexivity|]. split; [lia|]. split; [apply final_rejection_nil|].
  intros rq e [].
Qed.

Lemma bounded_check {A : Type} (o : option A) : bounded 0 (check o).
Proof. destruct o; [apply bounded_ret | apply bounded_throw]. Qed.

Lemma bounded_send (meth : http_method) (url : string) (body : value) :
  bounded 1 (send meth url body).
Proof.
  intros tr. unfold send. eexists. simpl. split; [reflexivity|].
  split; [simpl; lia|]. split.
  - intros pre rq e post H. destruct pre as [|a pre]; simpl in H.
    + now injection H.
    + injection H as _ H. destruct pre; discriminate.
  - intros rq e [H|[]]. injection H as _ H. rewrite H. eauto.
Qed.

Lemma bounded_bind {A B : Type} (n1 n2 : nat) (m : M A) (k : A -> M B) :
  bounded n1 m -> (forall a, bounded n2 (k a)) -> bounded (n1 + n2) (bind m k).
Proof.
  intros Hm Hk tr. unfold bind.
  destruct (Hm tr) as [l1 [G1 [C1 [F1 R1]]]].
  destruct (m tr) as [[a|x] tr1]; simpl in *; subst tr1.
  - destruct (Hk a (tr ++ l1)%list) as [l2 [G2 [C2 [F2 R2]]]].
    assert (Hclean : forall rq e, ~ In (rq, Rejected e) l1).
    { intros rq e Hin. destruct (R1 _ _ Hin). discriminate. }
    exists (l1 ++ l2)%list. rewrite G2, app_assoc. split; [reflexivity|].
    split; [rewrite length_app; lia|]. split.
    + intros pre rq e post H.
      destruct (rejection_after_clean _ _ _ _ _ _ Hclean H) as [pre' [_ H2]].
      exact (F2 _ _ _ _ H2).
    + intros rq e Hin. apply in_app_or in Hin. destruct Hin as [Hin|Hin].
      * destruct (Hclean _ _ Hin).
      * eauto.
  - exists l1. split; [reflexivity|]. split; [lia|]. split; [exact F1|].
    intros rq e Hin. eauto.
Qed.

Lemma bounded_le {A : Type} (n n' : nat) (m : M A) :
  bounded n m -> (n <= n')%nat -> bounded n' m.
Proof.
  intros H Hle tr. destruct (H tr) as [news [G [C [F R]]]].
  exists news. split; [exact G|]. split; [lia|]. split; assumption.
Qed.

Lemma bounded_if {A : Type} (n1 n2 : nat) (c : bool) (x y : M A) :
  bounded n1 x -> bounded n2 y -> bounded (Nat.max n1 n2) (if c then x else y).
Proof.
  intros Hx Hy. destruct c; [apply (bounded_le n1) | apply (bounded_le n2)];
    auto; lia.
Qed.

Lemma bounded_api_guard {A : Type} (n : nat) (body : M A) :
  bounded n body -> bounded n (api_guard body).
Proof.
  intros H tr. unfold api_guard, try_catch.
  destruct (H tr) as [news [G [C [F R]]]]. exists news.
  destruct (body tr) as [[a|x] tr1]; simpl in *; subst tr1.
  - split; [reflexivity|]. split; [exact C|]. split; [exact F|exact R].
  - assert (Hx : exists y, fst (match x with
                                | AxiosError e => throw (api_error e)
                                | _ => throw x
                                end (tr ++ news)%list : result A * list event)
                          = Throw y
                          /\ snd (match x with
                                  | AxiosError e => throw (api_error e)
                                  | _ => throw x
                                  end (tr ++ news)%list : result A * list event)
                             = (tr ++ news)%list)
      by (destruct x; eexists; split; reflexivity).
    destruct Hx as [y [Hy Hs]]. rewrite Hs. split; [reflexivity|].
    split; [exact C|]. split; [exact F|]. intros rq e _. eauto.
Qed.

Lemma settles_le {A : Type} (n n' : nat) (m : M A) :
  settles n m -> (n <= n')%nat -> settles n' m.
Proof.
  intros H Hle tr. destruct (H tr) as [news [G [C F]]].
  exists news. split; [exact G|]. split; [lia|exact F].
Qed.

Lemma settles_throw {A : Type} (x : exn) : settles 0 (@throw A x).
Proof.
  intros tr. destruct (bounded_throw (A := A) x tr) as [news [G [C [F _]]]]. eauto.
Qed.

Lemma respond_inline_log (body : M tool_result) (tr : list event) :
  snd (respond_inline body tr) = snd (body tr).
Proof.
  unfold respond_inline, try_catch.
  destruct (body tr) as [[a|x] tr1]; simpl; [reflexivity|].
  destruct x; reflexivity.
Qed.

Lemma settles_respond (n : nat) (operation : M value) :
  bounded n operation -> settles n (respond operation).
Proof.
  intros H tr. destruct (H tr) as [news [G [C [F _]]]].
  exists news. rewrite respond_log. auto.
Qed.

Lemma settles_respond_inline (n : nat) (body : M tool_result) :
  bounded n body -> settles n (respond_inline body).
Proof.
  intros H tr. destruct (H tr) as [news [G [C [F _]]]].
  exists news. rewrite respond_inline_log. auto.
Qed.

End Bounds.

Ltac bound_step :=
  first
    [ apply bounded_ret
    | apply bounded_check
    | apply bounded_send
    | apply bounded_throw
    | apply bounded_api_guard
    | eapply bounded_bind; [|intro]
    | eapply bounded_if ].

Ltac bound_body lemmas :=
  cbv zeta; eapply bounded_le;
  [ repeat first [bound_step | lemmas] | simpl; lia ].

Section OperationBounds.

Context {W : World}.

Lemma getBranches_bounded p r : bounded 1 (getBranches p r).
Proof. unfold getBranches. bound_body fail. Qed.

Lemma getDefaultBranch_bounded p r : bounded 1 (getDefaultBranch p r).
Proof. unfold getDefaultBranch. bound_body fail. Qed.

Lemma getBranchRef_bounded p r b : bounded 1 (getBranchRef p r b).
Proof. unfold getBranchRef. bound_body fail. Qed.

Lemma getLatestCommit_bounded p r b : bounded 1 (getLatestCommit p r b).
Proof. unfold getLatestCommit. bound_body fail. Qed.

Lemma createBranch_bounded p r b f : bounded 3 (createBranch p r b f).
Proof.
  unfold createBranch.
  bound_body ltac:(first [apply getDefaultBranch_bounded | apply getLatestCommit_bounded]).
Qed.

Lemma updateBranch_bounded p r b n o : bounded 1 (updateBranch p r b n o).
Proof. unfold updateBranch. bound_body fail. Qed.

Lemma getCommits_bounded p r b : bounded 1 (getCommits p r b).
Proof. unfold getCommits. bound_body fail. Qed.

Lemma createPullRequest_bounded p r s t title d :
  bounded 1 (createPullRequest p r s t title d).
Proof. unfold createPullRequest. bound_body fail. Qed.

Lemma getIssue_bounded p r i : bounded 1 (getIssue p r i).
Proof. unfold getIssue. bound_body fail. Qed.

Lemma addIssueComment_bounded p r i c : bounded 1 (addIssueComment p r i c).
Proof. unfold addIssueComment. bound_body fail. Qed.

Lemma getFileContent_bounded p r f b : bounded 1 (getFileContent p r f b).
Proof. unfold getFileContent. bound_body fail. Qed.

Lemma createOrUpdateFile_bounded p r f c m b :
  bounded 2 (createOrUpdateFile p r f c m b).
Proof. unfold createOrUpdateFile. bound_body fail. Qed.

Lemma pushFiles_bounded p r b f m : bounded 2 (pushFiles p r b f m).
Proof. unfold pushFiles. bound_body ltac:(apply getLatestCommit_bounded). Qed.

Lemma createRepository_bounded p n d : bounded 1 (createRepository p n d).
Proof. unfold createRepository. bound_body fail. Qed.

Lemma searchRepositories_bounded p q page perPage :
  bounded 1 (searchRepositories p q page perPage).
Proof. unfold searchRepositories. bound_body fail. Qed.

Lemma forkRepository_bounded p r n t : bounded 3 (forkRepository p r n t).
Proof. unfold forkRepository. bound_body ltac:(apply createRepository_bounded). Qed.

Lemma searchCode_bounded p r s f t : bounded 1 (searchCode p r s f t).
Proof. unfold searchCode. bound_body fail. Qed.

Lemma searchWorkItems_bounded p q s ty a t :
  bounded 2 (searchWorkItems p q s ty a t).
Proof. unfold searchWorkItems. bound_body fail. Qed.

Lemma searchUsers_bounded q t : bounded 1 (searchUsers q t).
Proof. unfold searchUsers. bound_body fail. Qed.

Lemma perform_bounded (op : operation) : bounded (request_budget op) (perform op).
Proof.
  destruct op; simpl;
    auto using getBranches_bounded, getDefaultBranch_bounded, getBranchRef_bounded,
      getLatestCommit_bounded, createBranch_bounded, updateBranch_bounded,
      getCommits_bounded, createPullRequest_bounded, getIssue_bounded,
      addIssueComment_bounded, getFileContent_bounded, createOrUpdateFile_bounded,
      pushFiles_bounded, createRepository_bounded, searchRepositories_bounded,
      forkRepository_bounded, searchCode_bounded, searchWorkItems_bounded,
      searchUsers_bounded.
Qed.

Lemma inline_body_bounded (url : string) :
  bounded 1 (response <- send GET url VUndefined ;;
             listed <- check (prop (data response) "value") ;;
             ret (success (JSON_stringify listed))).
Proof. bound_body fail. Qed.

Lemma call_tool_settles (call : tool_call) : settles 3 (call_tool call).
Proof.
  unfold call_tool, invalid.
  repeat match goal with
         | |- settles _ (if ?c then _ else _) => destruct c
         end;
    first
      [ apply settles_le with (n := 0); [apply settles_throw | lia]
      | apply settles_le with (n := 1);
        [apply settles_respond_inline, inline_body_bounded | lia]
      | eapply settles_le;
        [ apply settles_respond;
          first [ apply getBranches_bounded | apply createBranch_bounded
                | apply updateBranch_bounded | apply getCommits_bounded
                | apply createPullRequest_bounded | apply addIssueComment_bounded
                | apply getFileContent_bounded | apply createOrUpdateFile_bounded
                | apply pushFiles_bounded | apply createRepository_bounded
                | apply forkRepository_bounded | apply searchCode_bounded
                | apply searchWorkItems_bounded | apply searchUsers_bounded ]
        | lia ] ].
Qed.

End OperationBounds.

(* ================================================================== *)
(** ** Properties of every operation and every tool *)
(* ================================================================== *)

(** X1: for a tool of the catalog, the invocation throws [InvalidParams]
    exactly when one of its required arguments is falsy (absent, null,
    false, 0 or the empty string); and when all of them are truthy, whatever
    their types, no [McpError] is thrown at all. *)
Theorem validation_is_truthiness {W : World}
        (t : tool_descriptor) (call : tool_call) (tr : list event) :
  In t catalog ->
  name call = tool_name t ->
  ((exists msg, fst (call_tool call tr) = Throw (McpError InvalidParams msg))
   <-> exists k, In k (required t) /\ truthy (arg call k) = false) /\
  ((forall k, In k (required t) -> truthy (arg call k) = true) ->
   forall code msg, fst (call_tool call tr) <> Throw (McpError code msg)).
Proof.
  intros Ht Hn. destruct (dispatch_known t Ht) as [msg [_ H]].
  specialize (H call Hn).
  assert (Hf : fails_validation t call = true
               <-> exists k, In k (required t) /\ truthy (arg call k) = false).
  { unfold fails_validation, missing. rewrite existsb_exists.
    split; intros [k [Hk Hv]]; exists k; split; auto.
    - now apply negb_true_iff.
    - now apply negb_true_iff. }
  destruct (fails_validation t call).
  - split.
    + split; [intros _; now apply Hf | intros _; exists msg; now rewrite H].
    + intros Hall. destruct (proj1 Hf eq_refl) as [k [Hk Hv]].
      rewrite (Hall k Hk) in Hv. discriminate.
  - destruct H as [Hs _]. destruct (Hs tr) as [news [_ [_ T]]].
    split.
    + split.
      * intros [m Hm]. discriminate (T _ Hm).
      * intros Hex. apply Hf in Hex. discriminate.
    + intros _ code m Hm. discriminate (T _ Hm).
Qed.

Lemma validation_is_truthiness_witness :
  fst (@call_tool (mock_world quiet_platform)
         {| name := "get_branches";
            arguments := Some [("project_id", num 7);
                               ("repository_id", VArr [VStr "R"])] |} [])
  <> Throw (McpError InvalidParams "project_id and repository_id are required").
Proof.
  apply (proj2 (@validation_is_truthiness (mock_world quiet_platform)
                  {| tool_name := "get_branches";
                     tool_description := "Get a list of branches for a repository";
                     required := ["project_id"; "repository_id"] |}
                  {| name := "get_branches";
                     arguments := Some [("project_id", num 7);
                                        ("repository_id", VArr [VStr "R"])] |}
                  [] ltac:(simpl; auto 20) eq_refl)).
  intros k [<-|[<-|[]]]; reflexivity.
Defined.

(** X2: no operation and no tool sends anything after a rejected exchange:
    in the exchanges of one call a rejection can only be the last one. *)
Theorem nothing_is_sent_after_a_rejection {W : World} :
  (forall op tr pre rq e post,
      emitted (perform op) tr = (pre ++ (rq, Rejected e) :: post)%list ->
      post = []) /\
  (forall call tr pre rq e post,
      emitted (call_tool call) tr = (pre ++ (rq, Rejected e) :: post)%list ->
      post = []).
Proof.
  split.
  - intros op tr pre rq e post H.
    destruct (perform_bounded op tr) as [news [G [_ [F _]]]].
    rewrite (emitted_app _ _ _ G) in H. exact (F _ _ _ _ H).
  - intros call tr pre rq e post H.
    destruct (call_tool_settles call tr) as [news [G [_ F]]].
    rewrite (emitted_app _ _ _ G) in H. exact (F _ _ _ _ H).
Qed.

Lemma nothing_is_sent_after_a_rejection_witness :
  let W := mock_world commits_down_platform in
  let call := {| name := "create_branch";
                 arguments := Some [("project_id", VStr "P"); ("repository_id", VStr "R");
                                    ("branch", VStr "feature-x")] |} in
  let read := (@default_branch_request W (VStr "P") (VStr "R"),
               ok_response (VObj [("id", VStr "R");
                                  ("defaultBranch", VStr "refs/heads/main")])) in
  let fetch := @latest_commit_request W (VStr "P") (VStr "R") (VStr "main") in
  emitted (@call_tool W call) [] = ([read] ++ (fetch, Rejected not_found_error) :: [])%list
  /\ @nil event = [].
Proof.
  intros W call read fetch. split; [reflexivity|].
  apply (proj2 (@nothing_is_sent_after_a_rejection W) call [] [read] fetch
               not_found_error []).
  reflexivity.
Defined.

(** X3: one call of an operation sends at most the number of requests of
    its budget (three for [createBranch] and [forkRepository], two for
    [createOrUpdateFile], [pushFiles] and [searchWorkItems], one for the
    others), and one tool invocation at most three. *)
Theorem requests_are_bounded {W : World} :
  (forall op tr, (List.length (emitted (perform op) tr) <= request_budget op)%nat) /\
  (forall call tr, (List.length (emitted (call_tool call) tr) <= 3)%nat).
Proof.
  split.
  - intros op tr. destruct (perform_bounded op tr) as [news [G [C _]]].
    now rewrite (emitted_app _ _ _ G).
  - intros call tr. destruct (call_tool_settles call tr) as [news [G [C _]]].
    now rewrite (emitted_app _ _ _ G).
Qed.

(** The budget of three is reached. *)
Example request_budget_is_reached :
  List.length (emitted (@createBranch (mock_world branch_platform)
                          (VStr "P") (VStr "R") (VStr "feature-x") VUndefined) [])
  = 3%nat.
Proof. reflexivity. Qed.

(** X4: [get_projects] and [get_repositories] talk to the platform inline.
    When their request is rejected, the returned error text is the prefix,
    once, followed by the axios error's own message: the body of the
    response plays no part. *)
Theorem inline_tools_report_the_axios_message {W : World}
        (call : tool_call) (tr : list event) (rq : request) (e : axios_error) :
  name call = "get_projects" \/ name call = "get_repositories" ->
  In (rq, Rejected e) (emitted (call_tool call) tr) ->
  fst (call_tool call tr)
  = Ok {| text := VStr ("Azure DevOps API error: " ++ err_message e);
          isError := true |}.
Proof.
  intros Hn. unfold emitted, call_tool.
  destruct Hn as [Hn|Hn]; rewrite Hn;
    cbn -[missing arg respond_inline invalid send];
    [|destruct (missing _);
      [unfold invalid, throw; simpl; rewrite skipn_all; contradiction|]];
    unfold respond_inline, try_catch, bind, send;
    (destruct (platform tr _) as [r|e'];
     [ destruct (prop (data r) "value"); simpl; rewrite skipn_past;
       intros [H|[]]; discriminate
     | simpl; rewrite skipn_past; intros [[= _ <-]|[]]; reflexivity ]).
Qed.

Lemma inline_tools_report_the_axios_message_witness :
  fst (@call_tool (mock_world not_found_platform)
         {| name := "get_repositories";
            arguments := Some [("project_id", VStr "P")] |} [])
  = Ok {| text := VStr "Azure DevOps API error: Request failed with status code 404";
          isError := true |}.
Proof.
  apply (@inline_tools_report_the_axios_message (mock_world not_found_platform)
           _ []
           (@get_request (mock_world not_found_platform)
              "P/_apis/git/repositories?api-version=7.1")
           not_found_error).
  - right. reflexivity.
  - vm_compute. left. reflexivity.
Defined.

Lemma single_get_log {W : World} {A : Type}
      (url : string) (k : response -> M A) (tr : list event) :
  (forall x tr', snd (k x tr') = tr') ->
  snd (api_guard (x <- send GET url VUndefined ;; k x) tr)
  = (tr ++ [(get_request url, platform tr (get_request url))])%list.
Proof.
  intros Hk. unfold api_guard, try_catch, bind, send. fold (get_request url).
  destruct (platform tr (get_request url)) as [r|e]; simpl; [|reflexivity].
  specialize (Hk r (tr ++ [(get_request url, Resolved r)])%list).
  destruct (k r _) as [[a|x] tr1]; simpl in *; subst tr1; [reflexivity|].
  destruct x; reflexivity.
Qed.

Lemma inline_body_log {W : World} (url : string) (tr : list event) :
  snd ((response <- send GET url VUndefined ;;
        listed <- check (prop (data response) "value") ;;
        ret (success (JSON_stringify listed))) tr)
  = (tr ++ [(get_request url, platform tr (get_request url))])%list.
Proof.
  unfold bind, send. fold (get_request url).
  destruct (platform tr (get_request url)) as [r|e]; simpl; [|reflexivity].
  destruct (prop (data r) "value"); reflexivity.
Qed.



(* ================================================================== *)
(** ** Running a handler step by step *)
(* ================================================================== *)

Lemma send_get {W : World} (url : string) (tr : list event) :
  send GET url VUndefined tr
  = (match platform tr (get_request url) with
     | Resolved r => Ok r
     | Rejected e => Throw (AxiosError e)
     end, (tr ++ [(get_request url, platform tr (get_request url))])%list).
Proof. reflexivity. Qed.

Lemma send_post {W : World} (url : string) (body : value) (tr : list event) :
  send POST url body tr
  = (match platform tr (post_request url body) with
     | Resolved r => Ok r
     | Rejected e => Throw (AxiosError e)
     end, (tr ++ [(post_request url body, platform tr (post_request url body))])%list).
Proof. reflexivity. Qed.

Lemma send_put {W : World} (url : string) (body : value) (tr : list event) :
  send PUT url body tr
  = (match platform tr (put_request url body) with
     | Resolved r => Ok r
     | Rejected e => Throw (AxiosError e)
     end, (tr ++ [(put_request url body, platform tr (put_request url body))])%list).
Proof. reflexivity. Qed.

Ltac run_step :=
  cbv beta iota zeta delta [bind try_catch api_guard check ret throw fst snd].

(* ================================================================== *)
(** ** Writing files *)
(* ================================================================== *)

Lemma createOrUpdateFile_run {W : World} (p r f c m b : value) (tr : list event) :
  createOrUpdateFile p r f c m b tr
  = match platform tr (commits_request p r b) with
    | Rejected e =>
        (Throw (api_error e), (tr ++ [(commits_request p r b, Rejected e)])%list)
    | Resolved r1 =>
        let tr1 := (tr ++ [(commits_request p r b, Resolved r1)])%list in
        match first (data r1) with
        | None => (Throw TypeError, tr1)
        | Some latest =>
            match prop latest "commitId" with
            | None => (Throw TypeError, tr1)
            | Some id =>
                let rq2 := put_request (pushes_url p r)
                             (push_body b id m (VArr [edit_change f c])) in
                (match platform tr1 rq2 with
                 | Rejected e => Throw (api_error e)
                 | Resolved r2 => Ok (data r2)
                 end, (tr1 ++ [(rq2, platform tr1 rq2)])%list)
            end
        end
    end.
Proof.
  unfold createOrUpdateFile, commits_request, pushes_url. run_step.
  rewrite send_get.
  destruct (platform tr (get_request _)) as [r1|e]; run_step; [|reflexivity].
  destruct (first (data r1)) as [latest|]; run_step; [|reflexivity].
  destruct (prop latest "commitId") as [id|]; run_step; [|reflexivity].
  rewrite send_put.
  destruct (platform _ (put_request _ _)); reflexivity.
Qed.

Lemma update_file_content_branch {W : World} (call : tool_call) :
  name call = "update_file_content" ->
  truthy (arg call "project_id") = true ->
  truthy (arg call "repository_id") = true ->
  truthy (arg call "file_path") = true ->
  truthy (arg call "branch") = true ->
  truthy (arg call "content") = true ->
  truthy (arg call "commit_message") = true ->
  call_tool call
  = respond (createOrUpdateFile (arg call "project_id") (arg call "repository_id")
               (arg call "file_path") (arg call "branch") (arg call "content")
               (arg call "commit_message")).
Proof.
  intros Hn Hp Hr Hf Hb Hc Hm. unfold call_tool. rewrite Hn.
  cbn -[missing arg respond invalid updateFileContent].
  unfold missing. rewrite Hp, Hr, Hf, Hb, Hc, Hm. reflexivity.
Qed.

(** X6: [update_file_content] hands its arguments to [createOrUpdateFile]
    in another order than that function declares them.  An invocation that
    passes validation behaves as [create_or_update_file] called with
    [content := branch], [commit_message := content] and
    [branch := commit_message]: the commit listing is asked for the branch
    named by the commit message, and the push updates [refs/heads/<commit
    message>], with the content as the comment and the branch name as the
    new content of the file. *)
Theorem update_file_content_transposes_its_arguments {W : World}
        (call : tool_call) (tr : list event) :
  name call = "update_file_content" ->
  truthy (arg call "project_id") = true ->
  truthy (arg call "repository_id") = true ->
  truthy (arg call "file_path") = true ->
  truthy (arg call "branch") = true ->
  truthy (arg call "content") = true ->
  truthy (arg call "commit_message") = true ->
  let p := arg call "project_id" in
  let r := arg call "repository_id" in
  let path := arg call "file_path" in
  let branch := arg call "branch" in
  let content := arg call "content" in
  let message := arg call "commit_message" in
  call_tool call tr
  = call_tool {| name := "create_or_update_file";
                 arguments := Some [("project_id", p); ("repository_id", r);
                                    ("path", path); ("content", branch);
                                    ("commit_message", content);
                                    ("branch", message)] |} tr /\
  (exists rest,
      emitted (call_tool call) tr
      = (commits_request p r message,
         platform tr (commits_request p r message)) :: rest) /\
  (forall r1 latest id,
      platform tr (commits_request p r message) = Resolved r1 ->
      first (data r1) = Some latest ->
      prop latest "commitId" = Some id ->
      exists out,
        emitted (call_tool call) tr
        = [(commits_request p r message, Resolved r1);
           (put_request (pushes_url p r)
              (VObj [("refUpdates",
                      VArr [VObj [("name", VStr ("refs/heads/" ++ to_string message));
                                  ("oldObjectId", id)]]);
                     ("commits",
                      VArr [VObj [("comment", content);
                                  ("changes",
                                   VArr [VObj [("changeType", VStr "edit");
                                               ("item", VObj [("path", path)]);
                                               ("newContent",
                                                VObj [("contentType", VStr "rawtext");
                                                      ("content", branch)])]])]])]),
            out)]).
Proof.
  intros Hn Hp Hr Hf Hb Hc Hm p r path branch content message.
  rewrite (update_file_content_branch call Hn Hp Hr Hf Hb Hc Hm).
  fold p r path branch content message.
  split; [|split].
  - unfold call_tool at 1.
    cbn -[missing respond invalid createOrUpdateFile truthy].
    unfold missing. subst p r path branch content message.
    rewrite Hp, Hr, Hf, Hb, Hc, Hm. reflexivity.
  - unfold emitted. rewrite respond_log, createOrUpdateFile_run.
    destruct (platform tr (commits_request p r message)) as [r1|e]; cbv zeta.
    + destruct (first (data r1)) as [latest|];
        [destruct (prop latest "commitId")|]; simpl;
        rewrite <- ?app_assoc; rewrite skipn_past; eexists; reflexivity.
    + simpl. rewrite skipn_past. eexists. reflexivity.
  - intros r1 latest id H1 H2 H3.
    unfold emitted. rewrite respond_log, createOrUpdateFile_run, H1. cbv zeta.
    rewrite H2, H3. simpl. rewrite <- app_assoc, skipn_past.
    eexists. reflexivity.
Qed.

Lemma update_file_content_transposes_its_arguments_witness :
  let W := mock_world array_commits_platform in
  exists rest,
    emitted (@call_tool W
               {| name := "update_file_content";
                  arguments := Some [("project_id", VStr "P"); ("repository_id", VStr "R");
                                     ("file_path", VStr "/a.txt"); ("branch", VStr "main");
                                     ("content", VStr "hello");
                                     ("commit_message", VStr "fix-typo")] |}) []
    = (@commits_request W (VStr "P") (VStr "R") (VStr "fix-typo"),
       ok_response (VArr [VObj [("commitId", VStr "c0ffee")]])) :: rest.
Proof.
  intros W.
  exact (proj1 (proj2
    (@update_file_content_transposes_its_arguments W
       {| name := "update_file_content";
          arguments := Some [("project_id", VStr "P"); ("repository_id", VStr "R");
                             ("file_path", VStr "/a.txt"); ("branch", VStr "main");
                             ("content", VStr "hello");
                             ("commit_message", VStr "fix-typo")] |} []
       eq_refl eq_refl eq_refl eq_refl eq_refl eq_refl eq_refl))).
Defined.

Lemma create_or_update_file_branch {W : World} (call : tool_call) :
  name call = "create_or_update_file" ->
  truthy (arg call "project_id") = true ->
  truthy (arg call "repository_id") = true ->
  truthy (arg call "path") = true ->
  truthy (arg call "content") = true ->
  truthy (arg call "commit_message") = true ->
  truthy (arg call "branch") = true ->
  call_tool call
  = respond (createOrUpdateFile (arg call "project_id") (arg call "repository_id")
               (arg call "path") (arg call "content") (arg call "commit_message")
               (arg call "branch")).
Proof.
  intros Hn Hp Hr Hf Hc Hm Hb. unfold call_tool. rewrite Hn.
  cbn -[missing arg respond invalid createOrUpdateFile].
  unfold missing. rewrite Hp, Hr, Hf, Hc, Hm, Hb. reflexivity.
Qed.

Lemma respond_type_error {W : World} (operation : M value) (tr tr' : list event) :
  operation tr = (Throw TypeError, tr') ->
  respond operation tr = (Throw TypeError, tr').
Proof. intros H. unfold respond, try_catch, bind. now rewrite H. Qed.

(** X7: [createOrUpdateFile] reads the latest commit as element 0 of the
    response body itself.  When the commit listing resolves with an object
    that has no property "0" (the shape [{count, value}] that
    [getLatestCommit] reads), the operation throws a TypeError after that one
    GET and never sends the PUT; through [create_or_update_file] the
    TypeError escapes as a thrown error.  With a bare array whose first
    element carries a [commitId], the PUT is sent with that id as
    [oldObjectId]. *)
Theorem create_or_update_file_needs_an_array_body {W : World}
        (p r f c m b : value) (tr : list event) (r1 : response) :
  platform tr (commits_request p r b) = Resolved r1 ->
  (forall fields,
      data r1 = VObj fields -> assoc "0" fields = None ->
      createOrUpdateFile p r f c m b tr
      = (Throw TypeError, (tr ++ [(commits_request p r b, Resolved r1)])%list) /\
      forall call,
        name call = "create_or_update_file" ->
        arg call "project_id" = p -> arg call "repository_id" = r ->
        arg call "path" = f -> arg call "content" = c ->
        arg call "commit_message" = m -> arg call "branch" = b ->
        truthy p = true -> truthy r = true -> truthy f = true ->
        truthy c = true -> truthy m = true -> truthy b = true ->
        call_tool call tr
        = (Throw TypeError, (tr ++ [(commits_request p r b, Resolved r1)])%list)) /\
  (forall latest rest id,
      data r1 = VArr (latest :: rest) -> prop latest "commitId" = Some id ->
      exists out,
        emitted (createOrUpdateFile p r f c m b) tr
        = [(commits_request p r b, Resolved r1);
           (put_request (pushes_url p r)
              (push_body b id m (VArr [edit_change f c])), out)]).
Proof.
  intros H1. split.
  - intros fields Hd H0.
    assert (Hrun : createOrUpdateFile p r f c m b tr
                   = (Throw TypeError,
                      (tr ++ [(commits_request p r b, Resolved r1)])%list)).
    { rewrite createOrUpdateFile_run, H1. cbv zeta. rewrite Hd.
      unfold first, own. rewrite H0. reflexivity. }
    split; [exact Hrun|].
    intros call Hn <- <- <- <- <- <- Hp Hr Hf Hc Hm Hb.
    rewrite (create_or_update_file_branch call Hn Hp Hr Hf Hc Hm Hb).
    now apply respond_type_error.
  - intros latest rest id Hd Hc. unfold emitted.
    rewrite createOrUpdateFile_run, H1. cbv zeta. rewrite Hd.
    cbn [first hd]. rewrite Hc. cbn [snd].
    rewrite <- app_assoc, skipn_past. eexists. reflexivity.
Qed.

Lemma create_or_update_file_needs_an_array_body_witness :
  let W := mock_world branch_platform in
  @call_tool W
    {| name := "create_or_update_file";
       arguments := Some [("project_id", VStr "P"); ("repository_id", VStr "R");
                          ("path", VStr "/a.txt"); ("content", VStr "hello");
                          ("commit_message", VStr "add a"); ("branch", VStr "main")] |}
    []
  = (Throw TypeError,
     [(@commits_request W (VStr "P") (VStr "R") (VStr "main"),
       ok_response (VObj [("count", num 1);
                          ("value", VArr [VObj [("commitId", VStr "c0ffee")]])]))]).
Proof.
  intros W.
  refine (proj2 (proj1
    (@create_or_update_file_needs_an_array_body W (VStr "P") (VStr "R")
       (VStr "/a.txt") (VStr "hello") (VStr "add a") (VStr "main") []
       {| status := 200;
          data := VObj [("count", num 1);
                        ("value", VArr [VObj [("commitId", VStr "c0ffee")]])] |}
       eq_refl) _ eq_refl eq_refl)
    {| name := "create_or_update_file";
       arguments := Some [("project_id", VStr "P"); ("repository_id", VStr "R");
                          ("path", VStr "/a.txt"); ("content", VStr "hello");
                          ("commit_message", VStr "add a"); ("branch", VStr "main")] |}
    eq_refl eq_refl eq_refl eq_refl eq_refl eq_refl eq_refl
    eq_refl eq_refl eq_refl eq_refl eq_refl eq_refl).
Defined.

(* ================================================================== *)
(** ** Branches *)
(* ================================================================== *)

Lemma getLatestCommit_run {W : World} (p r b : value) (tr : list event) :
  getLatestCommit p r b tr
  = (match platform tr (latest_commit_request p r b) with
     | Rejected e => Throw (api_error e)
     | Resolved r2 =>
         match prop (data r2) "value" with
         | None => Throw TypeError
         | Some found =>
             if none_listed found
             then Throw (AzureDevOpsError
                           ("No commits found for branch " ++ to_string b))
             else match first found with
                  | None => Throw TypeError
                  | Some head =>
                      match prop head "commitId" with
                      | None => Throw TypeError
                      | Some c => Ok c
                      end
                  end
         end
     end,
     (tr ++ [(latest_commit_request p r b,
              platform tr (latest_commit_request p r b))])%list).
Proof.
  unfold getLatestCommit, latest_commit_request. run_step.
  rewrite send_get. unfold get_request.
  destruct (platform tr _) as [r2|e]; run_step; [|reflexivity].
  destruct (prop (data r2) "value") as [found|]; run_step; [|reflexivity].
  destruct (none_listed found); run_step; [reflexivity|].
  destruct (first found) as [head|]; run_step; [|reflexivity].
  destruct (prop head "commitId"); reflexivity.
Qed.

Lemma ref_creation_run {W : World} (p r b c : value) (tr2 : list event) :
  api_guard (response <- send POST (repo_path p r ++ "/refs?api-version=7.1")
                            (new_ref b c) ;;
             updated <- check (prop (data response) "value") ;;
             check (first updated)) tr2
  = (match platform tr2 (create_ref_request p r b c) with
     | Rejected e => Throw (api_error e)
     | Resolved r3 =>
         match prop (data r3) "value" with
         | None => Throw TypeError
         | Some updated =>
             match first updated with
             | None => Throw TypeError
             | Some created => Ok created
             end
         end
     end,
     (tr2 ++ [(create_ref_request p r b c,
               platform tr2 (create_ref_request p r b c))])%list).
Proof.
  run_step. unfold send. fold (create_ref_request p r b c).
  destruct (platform tr2 _) as [r3|e]; run_step; [|reflexivity].
  destruct (prop (data r3) "value") as [updated|]; run_step; [|reflexivity].
  destruct (first updated); reflexivity.
Qed.

Lemma createBranch_from_run {W : World} (p r b f : value) (tr : list event) :
  truthy f = true ->
  createBranch p r b f tr
  = match getLatestCommit p r f tr with
    | (Throw x, tr1) => (Throw x, tr1)
    | (Ok c, tr1) =>
        (match platform tr1 (create_ref_request p r b c) with
         | Rejected e => Throw (api_error e)
         | Resolved r3 =>
             match prop (data r3) "value" with
             | None => Throw TypeError
             | Some updated =>
                 match first updated with
                 | None => Throw TypeError
                 | Some created => Ok created
                 end
             end
         end,
         (tr1 ++ [(create_ref_request p r b c,
                   platform tr1 (create_ref_request p r b c))])%list)
    end.
Proof.
  intros Hf. unfold createBranch. rewrite Hf.
  unfold api_guard at 1, try_catch at 1, bind at 1 2, ret.
  destruct (getLatestCommit_guarded p r f tr) as [_ [_ [_ T]]].
  destruct (getLatestCommit p r f tr) as [[c|x] tr1]; simpl in T.
  - pose proof (ref_creation_run p r b c tr1) as H.
    unfold api_guard, try_catch in H.
    destruct ((response <- send POST _ _ ;; _) tr1) as [[a|y] tr2];
      cbv beta iota; exact H.
  - destruct (T x eq_refl) as [[s ->]| ->]; reflexivity.
Qed.

(** X8: [createBranch] with a source branch.  A truthy [fromBranch] is used
    as given: the repository is not read, the first request is the commit
    listing of [fromBranch] verbatim, and the ref creation follows only when
    [getLatestCommit] returns.  A falsy [fromBranch] (null, the empty string)
    behaves exactly as an absent one. *)
Theorem create_branch_from_a_given_branch {W : World}
        (p r b f : value) (tr : list event) :
  (truthy f = true ->
   let fetch := latest_commit_request p r f in
   (exists rest,
       emitted (createBranch p r b f) tr = (fetch, platform tr fetch) :: rest) /\
   (forall x tr1,
       getLatestCommit p r f tr = (Throw x, tr1) ->
       createBranch p r b f tr = (Throw x, tr1) /\
       emitted (createBranch p r b f) tr = [(fetch, platform tr fetch)]) /\
   (forall c tr1,
       getLatestCommit p r f tr = (Ok c, tr1) ->
       emitted (createBranch p r b f) tr
       = [(fetch, platform tr fetch);
          (create_ref_request p r b c, platform tr1 (create_ref_request p r b c))])) /\
  (truthy f = false ->
   createBranch p r b f tr = createBranch p r b VUndefined tr).
Proof.
  split.
  - intros Hf fetch. unfold emitted.
    rewrite (createBranch_from_run p r b f tr Hf), getLatestCommit_run.
    fold fetch.
    destruct (match platform tr fetch with
              | Resolved _ => _
              | Rejected e => Throw (api_error e)
              end) as [c|x]; cbn [snd].
    + split; [|split].
      * rewrite <- app_assoc, skipn_past. eexists. reflexivity.
      * intros x tr1 [=].
      * intros c' tr1 [= <- <-]. now rewrite <- app_assoc, skipn_past.
    + split; [|split].
      * rewrite skipn_past. eexists. reflexivity.
      * intros x' tr1 [= <- <-]. now rewrite skipn_past.
      * intros c tr1 [=].
  - intros Hf. unfold createBranch. rewrite Hf. reflexivity.
Qed.

Lemma create_branch_from_a_given_branch_witness :
  let W := mock_world branch_platform in
  emitted (@createBranch W (VStr "P") (VStr "R") (VStr "feature-x")
             (VStr "refs/heads/develop")) []
  = [(@latest_commit_request W (VStr "P") (VStr "R") (VStr "refs/heads/develop"),
      ok_response (VObj [("count", num 1);
                         ("value", VArr [VObj [("commitId", VStr "c0ffee")]])]));
     (@create_ref_request W (VStr "P") (VStr "R") (VStr "feature-x") (VStr "c0ffee"),
      ok_response (VObj [("value", VArr [VObj [("success", VBool true)]])]))].
Proof.
  intros W.
  refine (proj2 (proj2 (proj1
    (@create_branch_from_a_given_branch W (VStr "P") (VStr "R") (VStr "feature-x")
       (VStr "refs/heads/develop") []) eq_refl)) (VStr "c0ffee") _ _).
  vm_compute. reflexivity.
Defined.

Lemma pushFiles_run {W : World} (p r b files m : value) (tr : list event) :
  pushFiles p r b files m tr
  = match getLatestCommit p r b tr with
    | (Throw x, tr1) => (Throw x, tr1)
    | (Ok c, tr1) =>
        match call_map files file_change with
        | None => (Throw TypeError, tr1)
        | Some changes =>
            let rq := post_request (pushes_url p r) (push_body b c m changes) in
            (match platform tr1 rq with
             | Rejected e => Throw (api_error e)
             | Resolved r2 => Ok (data r2)
             end, (tr1 ++ [(rq, platform tr1 rq)])%list)
        end
    end.
Proof.
  unfold pushFiles, pushes_url.
  unfold api_guard at 1, try_catch at 1, bind at 1 2 3.
  destruct (getLatestCommit_guarded p r b tr) as [_ [_ [_ T]]].
  destruct (getLatestCommit p r b tr) as [[c|x] tr1]; simpl in T.
  - destruct (call_map files file_change) as [changes|]; run_step; [|reflexivity].
    rewrite send_post. destruct (platform tr1 _); reflexivity.
  - destruct (T x eq_refl) as [[s ->]| ->]; reflexivity.
Qed.

Lemma push_files_branch {W : World} (call : tool_call) :
  name call = "push_files" ->
  truthy (arg call "project_id") = true ->
  truthy (arg call "repository_id") = true ->
  truthy (arg call "branch") = true ->
  truthy (arg call "files") = true ->
  truthy (arg call "commit_message") = true ->
  call_tool call
  = respond (pushFiles (arg call "project_id") (arg call "repository_id")
               (arg call "branch") (arg call "files") (arg call "commit_message")).
Proof.
  intros Hn Hp Hr Hb Hf Hm. unfold call_tool. rewrite Hn.
  cbn -[missing arg respond invalid pushFiles].
  unfold missing. rewrite Hp, Hr, Hb, Hf, Hm. reflexivity.
Qed.

(** X9: a branch without commits.  When the commit listing resolves with an
    empty or missing [value], [getLatestCommit] throws the [AzureDevOpsError]
    "No commits found for branch <branch>" after its one GET; through
    [push_files] this comes back as a returned error result whose text
    carries the prefix once, and no push is sent. *)
Theorem no_commits_is_a_returned_error {W : World}
        (p r b : value) (tr : list event) (r2 : response) (found : value) :
  platform tr (latest_commit_request p r b) = Resolved r2 ->
  prop (data r2) "value" = Some found ->
  found = VArr [] \/ truthy found = false ->
  let fetched := (tr ++ [(latest_commit_request p r b, Resolved r2)])%list in
  getLatestCommit p r b tr
  = (Throw (AzureDevOpsError ("No commits found for branch " ++ to_string b)),
     fetched) /\
  forall call,
    name call = "push_files" ->
    arg call "project_id" = p -> arg call "repository_id" = r ->
    arg call "branch" = b ->
    truthy p = true -> truthy r = true -> truthy b = true ->
    truthy (arg call "files") = true ->
    truthy (arg call "commit_message") = true ->
    call_tool call tr
    = (Ok {| text := VStr ("Azure DevOps API error: No commits found for branch "
                             ++ to_string b);
             isError := true |},
       fetched).
Proof.
  intros H1 Hv Hnone fetched.
  assert (Hrun : getLatestCommit p r b tr
                 = (Throw (AzureDevOpsError
                             ("No commits found for branch " ++ to_string b)),
                    fetched)).
  { rewrite getLatestCommit_run, H1, Hv.
    replace (none_listed found) with true; [reflexivity|].
    unfold none_listed. destruct Hnone as [-> | ->]; reflexivity. }
  split; [exact Hrun|].
  intros call Hn <- <- <- Hp Hr Hb Hf Hm.
  rewrite (push_files_branch call Hn Hp Hr Hb Hf Hm).
  unfold respond, try_catch, bind. rewrite pushFiles_run, Hrun. reflexivity.
Qed.

Lemma no_commits_is_a_returned_error_witness :
  let W := mock_world no_commits_platform in
  fst (@call_tool W
         {| name := "push_files";
            arguments := Some [("project_id", VStr "P"); ("repository_id", VStr "R");
                               ("branch", VStr "empty");
                               ("files", VArr [file_json "/a.txt" "hello"]);
                               ("commit_message", VStr "add a")] |} [])
  = Ok {| text := VStr "Azure DevOps API error: No commits found for branch empty";
          isError := true |}.
Proof.
  intros W.
  pose proof (proj2
    (@no_commits_is_a_returned_error W (VStr "P") (VStr "R") (VStr "empty") []
       {| status := 200; data := VObj [("count", num 0); ("value", VArr [])] |}
       (VArr []) eq_refl eq_refl (or_introl eq_refl))
    {| name := "push_files";
       arguments := Some [("project_id", VStr "P"); ("repository_id", VStr "R");
                          ("branch", VStr "empty");
                          ("files", VArr [file_json "/a.txt" "hello"]);
                          ("commit_message", VStr "add a")] |}
    eq_refl eq_refl eq_refl eq_refl eq_refl eq_refl eq_refl eq_refl eq_refl) as H.
  rewrite H. reflexivity.
Defined.

Lemma map_file_changes (fs : list value) :
  Forall (fun f => nullish f = false) fs ->
  map_opt file_change fs
  = Some (map (fun f => edit_change (opt_prop f "path") (opt_prop f "content")) fs).
Proof.
  induction 1 as [|f fs Hf _ IH]; [reflexivity|].
  cbn [map_opt map]. rewrite IH. unfold file_change, opt_prop.
  destruct f; try discriminate; reflexivity.
Qed.

(** X10: [pushFiles] turns the files into one [edit] change each, in order,
    and pushes them in a single POST after the commit fetch, with the fetched
    commit id as [oldObjectId].  An empty array pushes a commit without
    changes.  When [files] is not an array, or holds a [null], the operation
    throws a TypeError after the fetch and sends no push. *)
Theorem push_files_sends_one_edit_per_file {W : World}
        (p r b files m c : value) (tr tr1 : list event) :
  getLatestCommit p r b tr = (Ok c, tr1) ->
  (forall fs,
      files = VArr fs ->
      Forall (fun f => nullish f = false) fs ->
      let changes :=
        map (fun f => edit_change (opt_prop f "path") (opt_prop f "content")) fs in
      let push := post_request (pushes_url p r) (push_body b c m (VArr changes)) in
      List.length changes = List.length fs /\
      snd (pushFiles p r b files m tr) = (tr1 ++ [(push, platform tr1 push)])%list /\
      fst (pushFiles p r b files m tr)
      = match platform tr1 push with
        | Resolved r2 => Ok (data r2)
        | Rejected e => Throw (api_error e)
        end) /\
  ((forall fs, files <> VArr fs) \/
   (exists fs, files = VArr fs /\ Exists (fun f => nullish f = true) fs) ->
   pushFiles p r b files m tr = (Throw TypeError, tr1)).
Proof.
  intros Hc. split.
  - intros fs -> Hfs changes push.
    split; [apply length_map|].
    rewrite pushFiles_run, Hc. cbn [call_map].
    rewrite (map_file_changes fs Hfs). cbn [option_map]. fold changes push.
    cbv zeta. destruct (platform tr1 push); split; reflexivity.
  - intros Hbad. rewrite pushFiles_run, Hc.
    replace (call_map files file_change) with (@None value); [reflexivity|].
    destruct Hbad as [Hna|[fs [-> Hex]]].
    + destruct files; try reflexivity. now destruct (Hna items).
    + cbn [call_map].
      replace (map_opt file_change fs) with (@None (list value)); [reflexivity|].
      induction Hex as [f fs Hf|f fs _ IH]; cbn [map_opt].
      * destruct f; try discriminate; reflexivity.
      * destruct (file_change f); [now rewrite <- IH | reflexivity].
Qed.

Lemma push_files_sends_one_edit_per_file_witness :
  let W := mock_world branch_platform in
  snd (@pushFiles W (VStr "P") (VStr "R") (VStr "main")
         (VArr [file_json "/a.txt" "hello"; file_json "/b.txt" "world"])
         (VStr "two files") [])
  = ([(@latest_commit_request W (VStr "P") (VStr "R") (VStr "main"),
       ok_response (VObj [("count", num 1);
                          ("value", VArr [VObj [("commitId", VStr "c0ffee")]])]))]
     ++ [(@post_request W (pushes_url (VStr "P") (VStr "R"))
            (push_body (VStr "main") (VStr "c0ffee") (VStr "two files")
               (VArr [edit_change (VStr "/a.txt") (VStr "hello");
                      edit_change (VStr "/b.txt") (VStr "world")])),
          ok_response (VObj [("value", VArr [VObj [("success", VBool true)]])]))])%list.
Proof.
  intros W.
  refine (proj1 (proj2 (proj1
    (@push_files_sends_one_edit_per_file W (VStr "P") (VStr "R") (VStr "main")
       (VArr [file_json "/a.txt" "hello"; file_json "/b.txt" "world"])
       (VStr "two files") (VStr "c0ffee") [] _ eq_refl)
    [file_json "/a.txt" "hello"; file_json "/b.txt" "world"] eq_refl _))).
  repeat constructor.
Defined.

Lemma qualified_starts (s : string) : startsWith (qualified s) "refs/heads/" = true.
Proof.
  unfold qualified. destruct (startsWith s "refs/heads/") eqn:H; [exact H|].
  apply startsWith_iff. now exists s.
Qed.

Lemma qualified_idempotent (s : string) : qualified (qualified s) = qualified s.
Proof. unfold qualified at 1. now rewrite qualified_starts. Qed.

Lemma updateBranch_run {W : World} (p r n o : value) (s : string) (tr : list event) :
  updateBranch p r (VStr s) n o tr
  = (match platform tr (update_ref_request p r s n o) with
     | Rejected e => Throw (api_error e)
     | Resolved r3 =>
         match prop (data r3) "value" with
         | None => Throw TypeError
         | Some updated =>
             match first updated with
             | None => Throw TypeError
             | Some x => Ok x
             end
         end
     end,
     (tr ++ [(update_ref_request p r s n o,
              platform tr (update_ref_request p r s n o))])%list).
Proof.
  unfold updateBranch, update_ref_request, refs_url, qualified.
  cbn [call_startsWith to_string]. run_step.
  rewrite send_post.
  destruct (platform tr _) as [r3|e]; run_step; [|reflexivity].
  destruct (prop (data r3) "value") as [updated|]; run_step; [|reflexivity].
  destruct (first updated); reflexivity.
Qed.

(** X11: [updateBranch] accepts a branch by its short or its full name: the
    name it posts always starts with [refs/heads/], a full name is posted
    unchanged, and the call with the short name is the same computation as
    the call with the full one.  Exactly one POST is sent.  A branch name
    that is not a string makes the operation throw a TypeError before
    anything is sent. *)
Theorem update_branch_qualifies_the_name {W : World}
        (p r n o : value) (tr : list event) :
  (forall s,
      updateBranch p r (VStr (qualified s)) n o tr = updateBranch p r (VStr s) n o tr /\
      emitted (updateBranch p r (VStr s) n o) tr
      = [(post_request (refs_url p r)
            (VObj [("name", VStr (qualified s)); ("newObjectId", n);
                   ("oldObjectId", o)]),
          platform tr (update_ref_request p r s n o))] /\
      startsWith (qualified s) "refs/heads/" = true /\
      (startsWith s "refs/heads/" = true -> qualified s = s)) /\
  (forall v, (forall s, v <> VStr s) ->
             updateBranch p r v n o tr = (Throw TypeError, tr)).
Proof.
  split.
  - intros s. split; [|split; [|split]].
    + rewrite !updateBranch_run. unfold update_ref_request.
      now rewrite qualified_idempotent.
    + unfold emitted. rewrite updateBranch_run. cbn [snd]. apply skipn_past.
    + apply qualified_starts.
    + intros H. unfold qualified. now rewrite H.
  - intros v Hv. unfold updateBranch.
    destruct v; try reflexivity. now destruct (Hv s).
Qed.

Lemma update_branch_qualifies_the_name_witness :
  @updateBranch (mock_world quiet_platform) (VStr "P") (VStr "R") (num 5)
    (VStr "a1") (VStr "b2") []
  = (Throw TypeError, []).
Proof.
  apply (proj2 (@update_branch_qualifies_the_name (mock_world quiet_platform)
                  (VStr "P") (VStr "R") (VStr "a1") (VStr "b2") [])).
  intros s. discriminate.
Defined.

Lemma getBranchRef_run {W : World} (p r : value) (s : string) (tr : list event) :
  getBranchRef p r (VStr s) tr
  = (match platform tr (branch_ref_request p r s) with
     | Rejected e => Throw (api_error e)
     | Resolved r1 =>
         match prop (data r1) "value" with
         | None => Throw TypeError
         | Some found =>
             if none_listed found
             then Throw (AzureDevOpsError ("Branch " ++ s ++ " not found"))
             else match first found with
                  | None => Throw TypeError
                  | Some x => Ok x
                  end
         end
     end,
     (tr ++ [(branch_ref_request p r s,
              platform tr (branch_ref_request p r s))])%list).
Proof.
  unfold getBranchRef, branch_ref_request, qualified.
  cbn [call_startsWith to_string]. run_step.
  rewrite send_get.
  destruct (platform tr _) as [r1|e]; run_step; [|reflexivity].
  destruct (prop (data r1) "value") as [found|]; run_step; [|reflexivity].
  destruct (none_listed found); run_step; [reflexivity|].
  destruct (first found); reflexivity.
Qed.

(** X12: [getBranchRef] looks a branch up by its full name, whichever way
    it was given: the short and the full name produce the same single GET.
    When the platform lists no ref, the operation throws the
    [AzureDevOpsError] "Branch <name> not found" with the name as the caller
    gave it; when it lists some, the first one is returned.  A name that is
    not a string throws a TypeError before anything is sent. *)
Theorem get_branch_ref_outcomes {W : World} (p r : value) (tr : list event) :
  (forall s,
      emitted (getBranchRef p r (VStr (qualified s))) tr
      = emitted (getBranchRef p r (VStr s)) tr /\
      emitted (getBranchRef p r (VStr s)) tr
      = [(branch_ref_request p r s, platform tr (branch_ref_request p r s))]) /\
  (forall s r1,
      platform tr (branch_ref_request p r s) = Resolved r1 ->
      (prop (data r1) "value" = Some (VArr []) \/
       prop (data r1) "value" = Some VUndefined ->
       fst (getBranchRef p r (VStr s) tr)
       = Throw (AzureDevOpsError ("Branch " ++ s ++ " not found"))) /\
      (forall x rest,
          prop (data r1) "value" = Some (VArr (x :: rest)) ->
          fst (getBranchRef p r (VStr s) tr) = Ok x)) /\
  (forall v, (forall s, v <> VStr s) ->
             getBranchRef p r v tr = (Throw TypeError, tr)).
Proof.
  split; [|split].
  - intros s. unfold emitted. rewrite !getBranchRef_run. cbn [snd].
    rewrite !skipn_past. unfold branch_ref_request.
    now rewrite qualified_idempotent.
  - intros s r1 H1. split.
    + intros [Hv|Hv]; rewrite getBranchRef_run, H1, Hv; reflexivity.
    + intros x rest Hv. rewrite getBranchRef_run, H1, Hv. reflexivity.
  - intros v Hv. unfold getBranchRef.
    destruct v; try reflexivity. now destruct (Hv s).
Qed.

Lemma get_branch_ref_outcomes_witness :
  fst (@getBranchRef (mock_world no_commits_platform) (VStr "P") (VStr "R")
         (VStr "gone") [])
  = Throw (AzureDevOpsError "Branch gone not found")
  /\ fst (@getBranchRef (mock_world one_ref_platform) (VStr "P") (VStr "R")
            (VStr "main") [])
     = Ok (VObj [("name", VStr "refs/heads/main"); ("objectId", VStr "c0ffee")]).
Proof.
  split.
  - refine (proj1 (proj1 (proj2
      (@get_branch_ref_outcomes (mock_world no_commits_platform)
         (VStr "P") (VStr "R") [])) "gone"
      {| status := 200; data := VObj [("count", num 0); ("value", VArr [])] |}
      eq_refl) (or_introl eq_refl)).
  - refine (proj2 (proj1 (proj2
      (@get_branch_ref_outcomes (mock_world one_ref_platform)
         (VStr "P") (VStr "R") [])) "main"
      {| status := 200;
         data := VObj [("count", num 1);
                       ("value", VArr [VObj [("name", VStr "refs/heads/main");
                                             ("objectId", VStr "c0ffee")]])] |}
      eq_refl) _ [] eq_refl).
Defined.

(* ================================================================== *)
(** ** Paging through the matching repositories *)
(* ================================================================== *)

Lemma firstn_plus {A : Type} (a b : nat) (l : list A) :
  firstn (a + b) l = (firstn a l ++ firstn b (skipn a l))%list.
Proof.
  revert l. induction a as [|a IH]; intros l; [reflexivity|].
  destruct l as [|x l]; [now rewrite !firstn_nil|].
  cbn [Nat.add firstn skipn app]. now rewrite IH.
Qed.

Lemma page_items_of (filtered : list value) (page perPage : Z) :
  page_items (page_of filtered page perPage)
  = slice filtered ((page - 1) * perPage) ((page - 1) * perPage + perPage).
Proof. reflexivity. Qed.

Lemma windows_up_to {A : Type} (xs : list A) (perPage : Z) (n : nat) :
  (0 <= perPage)%Z ->
  flat_map (fun k => page_window xs (Z.of_nat k) perPage) (seq 1 n)
  = firstn (n * Z.to_nat perPage) xs.
Proof.
  intros Hq. induction n as [|n IH]; [reflexivity|].
  rewrite seq_S, flat_map_app, IH. cbn [flat_map]. rewrite app_nil_r.
  unfold page_window.
  replace (Z.to_nat ((Z.of_nat (1 + n) - 1) * perPage)) with (n * Z.to_nat perPage)%nat
    by nia.
  replace (S n * Z.to_nat perPage)%nat with (n * Z.to_nat perPage + Z.to_nat perPage)%nat
    by lia.
  now rewrite firstn_plus.
Qed.

(** X13: the pages of [searchRepositories] partition the matching
    repositories.  For a page size of at least one, the [items] of the pages
    1 up to [totalPages], put one after the other, are exactly the filtered
    list, in order and without repetition; every page reports the same
    [totalPages]; and a page past the last one has no items. *)
Theorem pages_partition_the_matches
        (filtered : list value) (perPage : Z) :
  (1 <= perPage)%Z ->
  let total := Z.of_nat (List.length filtered) in
  let pages := ((total + perPage - 1) / perPage)%Z in
  flat_map (fun k => page_items (page_of filtered (Z.of_nat k) perPage))
           (seq 1 (Z.to_nat pages))
  = filtered /\
  (forall page,
      prop (page_of filtered page perPage) "totalPages" = Some (num pages) /\
      prop (page_of filtered page perPage) "total_count" = Some (num total)) /\
  (forall page, (pages < page)%Z ->
                page_items (page_of filtered page perPage) = []).
Proof.
  intros Hq total pages.
  destruct (ceil_div_pages total perPage ltac:(subst total; lia) Hq) as [Hc Hb].
  fold pages in Hc, Hb.
  assert (Hpages : (0 <= pages)%Z) by (subst total; nia).
  split; [|split].
  - transitivity (firstn (Z.to_nat pages * Z.to_nat perPage) filtered);
      [|apply firstn_all2; subst total; nia].
    rewrite <- windows_up_to by lia.
    rewrite !flat_map_concat_map. f_equal. apply map_ext_in.
    intros k Hk. apply in_seq in Hk.
    rewrite page_items_of. apply slice_is_window; lia.
  - intros page. unfold page_of. cbn [prop own assoc String.eqb Ascii.eqb Bool.eqb].
    fold total. rewrite Hc. auto.
  - intros page Hp. rewrite page_items_of, slice_is_window by lia.
    unfold page_window. rewrite skipn_all2; [apply firstn_nil|].
    subst total. nia.
Qed.

Lemma pages_partition_the_matches_witness :
  let matches := map repository_json
                     (filter (@keeps (mock_world sample_listing_platform) "api")
                             sample_repositories) in
  flat_map (fun k => page_items (page_of matches (Z.of_nat k) 10)) (seq 1 3)
  = matches.
Proof.
  intros matches.
  exact (proj1 (pages_partition_the_matches matches 10 ltac:(lia))).
Defined.

Lemma searchRepositories_run {W : World}
      (p q : string) (page perPage : option Z) (tr : list event) :
  searchRepositories p q page perPage tr
  = (match platform tr (listing_request p) with
     | Rejected e => Throw (api_error e)
     | Resolved r1 =>
         match prop (data r1) "value" with
         | None => Throw TypeError
         | Some listing =>
             match call_filter listing (repo_matches q) with
             | None => Throw TypeError
             | Some filtered =>
                 Ok (page_of filtered (default_to 1 page) (default_to 30 perPage))
             end
         end
     end,
     (tr ++ [(listing_request p, platform tr (listing_request p))])%list).
Proof.
  unfold searchRepositories. run_step. unfold send. fold (listing_request p).
  destruct (platform tr _) as [r1|e]; run_step; [|reflexivity].
  destruct (prop (data r1) "value") as [listing|]; run_step; [|reflexivity].
  destruct (call_filter listing (repo_matches q)); reflexivity.
Qed.

Lemma keeps_empty_query {W : World} (x : repository) : keeps "" x = true.
Proof. unfold keeps. cbn [toLowerCase]. now rewrite includes_empty. Qed.

Lemma filter_opt_none {A : Type} (keep : A -> option bool) (xs : list A) :
  Exists (fun x => keep x = None) xs -> filter_opt keep xs = None.
Proof.
  induction 1 as [x xs Hx|x xs _ IH]; cbn [filter_opt].
  - now rewrite Hx.
  - rewrite IH. now destruct (keep x).
Qed.



(* ================================================================== *)
(** ** Work items, forks and code search *)
(* ================================================================== *)

Lemma searchWorkItems_run {W : World} (p q s ty a top : value) (tr : list event) :
  searchWorkItems p q s ty a top tr
  = let rq1 := wiql_request p q s ty a top in
    let tr1 := (tr ++ [(rq1, platform tr rq1)])%list in
    match platform tr rq1 with
    | Rejected e => (Throw (api_error e), tr1)
    | Resolved r1 =>
        match prop (data r1) "workItems" with
        | None => (Throw TypeError, tr1)
        | Some w =>
            if truthy w && positive (opt_prop w "length") then
              match call_map w (fun item => prop item "id") with
              | None => (Throw TypeError, tr1)
              | Some ids =>
                  let rq2 := work_items_request ids in
                  (match platform tr1 rq2 with
                   | Rejected e => Throw (api_error e)
                   | Resolved r2 =>
                       match prop (data r2) "count" with
                       | None => Throw TypeError
                       | Some count =>
                           Ok (VObj [("count", count);
                                     ("value", opt_prop (data r2) "value")])
                       end
                   end, (tr1 ++ [(rq2, platform tr1 rq2)])%list)
              end
            else (Ok (VObj [("count", num 0); ("value", VArr [])]), tr1)
        end
    end.
Proof.
  unfold searchWorkItems, wiql_request, work_items_request. run_step.
  rewrite send_post.
  destruct (platform tr (post_request _ _)) as [r1|e]; run_step; [|reflexivity].
  destruct (prop (data r1) "workItems") as [w|]; run_step; [|reflexivity].
  destruct (truthy w && positive (opt_prop w "length")); run_step; [|reflexivity].
  destruct (call_map w _) as [ids|]; run_step; [|reflexivity].
  rewrite send_get.
  destruct (platform _ (get_request _)) as [r2|e]; run_step; [|reflexivity].
  destruct (prop (data r2) "count"); reflexivity.
Qed.

(** X15: [searchWorkItems] works in two steps.  The WIQL query is posted
    first.  When it finds nothing (an empty, missing or null [workItems]),
    the result is [{count: 0, value: []}] and no second request is sent.  When
    it finds work items, their ids, joined by commas in the order found, are
    asked for in one GET, which is the only other request. *)
Theorem search_work_items_two_steps {W : World}
        (p q s ty a top : value) (tr : list event) (r1 : response) :
  let query := wiql_request p q s ty a top in
  platform tr query = Resolved r1 ->
  (forall w,
      prop (data r1) "workItems" = Some w ->
      w = VArr [] \/ truthy w = false ->
      searchWorkItems p q s ty a top tr
      = (Ok (VObj [("count", num 0); ("value", VArr [])]),
         (tr ++ [(query, Resolved r1)])%list)) /\
  (forall item items ids,
      prop (data r1) "workItems" = Some (VArr (item :: items)) ->
      map_opt (fun i => prop i "id") (item :: items) = Some ids ->
      let details := work_items_request (VArr ids) in
      emitted (searchWorkItems p q s ty a top) tr
      = [(query, Resolved r1);
         (details, platform (tr ++ [(query, Resolved r1)]) details)]).
Proof.
  intros query H1. split.
  - intros w Hw Hnone. rewrite searchWorkItems_run. fold query. cbv zeta.
    rewrite H1, Hw.
    replace (truthy w && positive (opt_prop w "length")) with false; [reflexivity|].
    destruct Hnone as [-> | Hf]; [reflexivity | now rewrite Hf].
  - intros item items ids Hw Hids details. unfold emitted.
    rewrite searchWorkItems_run. fold query. cbv zeta. rewrite H1, Hw.
    replace (truthy (VArr (item :: items))
             && positive (opt_prop (VArr (item :: items)) "length")) with true.
    + cbn [call_map]. rewrite Hids. cbn [option_map snd]. fold details.
      now rewrite <- app_assoc, skipn_past.
    + cbn [truthy andb opt_prop prop String.eqb Ascii.eqb Bool.eqb].
      unfold positive, num, to_number. symmetry. apply Z.ltb_lt.
      cbn [List.length]. lia.
Qed.

Lemma search_work_items_two_steps_witness :
  let W := mock_world work_items_platform in
  emitted (@searchWorkItems W (VStr "P") (VStr "crash") VUndefined VUndefined
             VUndefined VUndefined) []
  = [(@wiql_request W (VStr "P") (VStr "crash") VUndefined VUndefined VUndefined
        VUndefined,
      ok_response (VObj [("workItems",
                          VArr [VObj [("id", num 11)]; VObj [("id", num 12)];
                                VObj [("id", num 30)]])]));
     (@get_request W "_apis/wit/workitems?ids=11,12,30&api-version=7.1",
      ok_response (VObj [("count", num 3); ("value", VArr [])]))].
Proof.
  intros W.
  exact (proj2
    (@search_work_items_two_steps W (VStr "P") (VStr "crash") VUndefined VUndefined
       VUndefined VUndefined []
       {| status := 200;
          data := VObj [("workItems",
                         VArr [VObj [("id", num 11)]; VObj [("id", num 12)];
                               VObj [("id", num 30)]])] |}
       eq_refl)
    (VObj [("id", num 11)]) [VObj [("id", num 12)]; VObj [("id", num 30)]]
    [num 11; num 12; num 30] eq_refl eq_refl).
Defined.

Lemma own_set_field_same (k : string) (v : value) (fields : list (string * value)) :
  own k (set_field k v fields) = v.
Proof.
  unfold own. induction fields as [|[k' v'] rest IH]; cbn [set_field assoc].
  - now rewrite String.eqb_refl.
  - destruct (String.eqb_spec k' k) as [->|Hne]; cbn [assoc].
    + now rewrite String.eqb_refl.
    + destruct (String.eqb_spec k' k); [contradiction|exact IH].
Qed.

Lemma own_set_field_other (k k0 : string) (v : value) (fields : list (string * value)) :
  k0 <> k -> own k0 (set_field k v fields) = own k0 fields.
Proof.
  intros Hne. unfold own.
  induction fields as [|[k' v'] rest IH]; cbn [set_field assoc].
  - destruct (String.eqb_spec k k0); [congruence|reflexivity].
  - destruct (String.eqb_spec k' k) as [->|Hk]; cbn [assoc].
    + destruct (String.eqb_spec k k0); [congruence|reflexivity].
    + destruct (String.eqb_spec k' k0); [reflexivity|exact IH].
Qed.

Lemma createRepository_run {W : World} (p n d : value) (tr : list event) :
  createRepository p n d tr
  = (match platform tr (create_repository_request p n d) with
     | Rejected e => Throw (api_error e)
     | Resolved r2 => Ok (data r2)
     end,
     (tr ++ [(create_repository_request p n d,
              platform tr (create_repository_request p n d))])%list).
Proof.
  unfold createRepository, create_repository_request. run_step. rewrite send_post.
  destruct (platform tr _); reflexivity.
Qed.

Lemma forkRepository_run {W : World} (p r n t : value) (tr : list event) (r1 : response) :
  platform tr (default_branch_request p r) = Resolved r1 ->
  nullish (data r1) = false ->
  let source := data r1 in
  let target := or_else t p in
  let tr1 := (tr ++ [(default_branch_request p r, Resolved r1)])%list in
  let create := create_repository_request target n (fork_description source) in
  let tr2 := (tr1 ++ [(create, platform tr1 create)])%list in
  forkRepository p r n t tr
  = match platform tr1 create with
    | Rejected e => (Throw (api_error e), tr2)
    | Resolved r2 =>
        match prop (data r2) "id" with
        | None => (Throw TypeError, tr2)
        | Some newId =>
            let import := import_request target newId source in
            (match platform tr2 import with
             | Rejected e => Throw (api_error e)
             | Resolved _ =>
                 Ok (VObj (set_field "source" source (spread (data r2))))
             end, (tr2 ++ [(import, platform tr2 import)])%list)
        end
    end.
Proof.
  intros H1 Hsrc.
  assert (Hname : prop (data r1) "name" = Some (opt_prop (data r1) "name")).
  { unfold opt_prop. destruct (data r1); try discriminate; reflexivity. }
  intros source target tr1 create tr2.
  unfold forkRepository.
  unfold api_guard at 1, try_catch at 1, bind at 1.
  unfold send at 1. fold (default_branch_request p r). rewrite H1.
  cbv beta iota zeta. fold source target tr1. fold source in Hname.
  unfold bind at 1. rewrite Hname. cbn [check ret].
  unfold bind at 1. fold (fork_description source).
  rewrite createRepository_run. fold create tr2.
  destruct (platform tr1 create) as [r2|e]; cbv beta iota; [|reflexivity].
  unfold bind at 1. destruct (prop (data r2) "id") as [newId|]; cbn [check ret throw];
    [|reflexivity].
  unfold bind, send. fold (import_request target newId source).
  destruct (platform tr2 _); reflexivity.
Qed.

(** X16: [forkRepository] reads the source, creates the copy and asks for
    the import, in that order.  The copy is created in the target project,
    which is the source project when no target is given, with the
    description "Fork of <name>: <description>".  When the creation is
    rejected no import is requested.  When the import is rejected the
    operation fails although the copy has been created.  When all three
    succeed the result is the created repository with the source added under
    [source], its other properties unchanged. *)
Theorem fork_repository_steps {W : World}
        (p r n t : value) (tr : list event) (r1 : response) :
  platform tr (default_branch_request p r) = Resolved r1 ->
  nullish (data r1) = false ->
  let source := data r1 in
  let target := or_else t p in
  let read := (default_branch_request p r, Resolved r1) in
  let create := create_repository_request target n (fork_description source) in
  (truthy t = false -> target = p) /\
  (truthy t = true -> target = t) /\
  (forall e,
      platform (tr ++ [read]) create = Rejected e ->
      forkRepository p r n t tr
      = (Throw (api_error e), (tr ++ [read; (create, Rejected e)])%list)) /\
  (forall r2 newId,
      platform (tr ++ [read]) create = Resolved r2 ->
      prop (data r2) "id" = Some newId ->
      let created := (create, Resolved r2) in
      let import := import_request target newId source in
      (forall e,
          platform (tr ++ [read; created]) import = Rejected e ->
          forkRepository p r n t tr
          = (Throw (api_error e),
             (tr ++ [read; created; (import, Rejected e)])%list)) /\
      (forall r3,
          platform (tr ++ [read; created]) import = Resolved r3 ->
          exists fields,
            forkRepository p r n t tr
            = (Ok (VObj fields),
               (tr ++ [read; created; (import, Resolved r3)])%list) /\
            own "source" fields = source /\
            forall k, k <> "source" -> own k fields = own k (spread (data r2)))).
Proof.
  intros H1 Hsrc source target read create. subst read.
  pose proof (forkRepository_run p r n t tr r1 H1 Hsrc) as Hrun.
  cbv zeta in Hrun. fold source target create in Hrun.
  split; [unfold target, or_else; now intros ->|].
  split; [unfold target, or_else; now intros ->|].
  split.
  - intros e He. rewrite Hrun, He. now rewrite <- app_assoc.
  - intros r2 newId H2 Hid created import. split.
    + intros e He. rewrite Hrun, H2, Hid. cbv zeta. fold import.
      replace ((tr ++ [(default_branch_request p r, Resolved r1)]) ++ [(create, Resolved r2)])%list
        with (tr ++ [(default_branch_request p r, Resolved r1); created])%list
        by (now rewrite <- app_assoc).
      rewrite He. now rewrite <- app_assoc.
    + intros r3 H3. eexists. rewrite Hrun, H2, Hid. cbv zeta. fold import.
      replace ((tr ++ [(default_branch_request p r, Resolved r1)]) ++ [(create, Resolved r2)])%list
        with (tr ++ [(default_branch_request p r, Resolved r1); created])%list
        by (now rewrite <- app_assoc).
      rewrite H3. split; [now rewrite <- app_assoc|]. split.
      * apply own_set_field_same.
      * intros k Hk. now apply own_set_field_other.
Qed.

Lemma fork_repository_steps_witness :
  let W := mock_world import_down_platform in
  let source := VObj [("id", VStr "R"); ("name", VStr "billing");
                      ("remoteUrl", VStr "https://dev.azure.com/acme/P/_git/billing")] in
  snd (@forkRepository W (VStr "P") (VStr "R") (VStr "copy") VUndefined [])
  = [(@default_branch_request W (VStr "P") (VStr "R"), ok_response source);
     (@create_repository_request W (VStr "P") (VStr "copy")
        (VStr "Fork of billing: "),
      ok_response (VObj [("id", VStr "N"); ("name", VStr "copy")]));
     (@import_request W (VStr "P") (VStr "N") source, Rejected not_found_error)]
  /\ fst (@forkRepository W (VStr "P") (VStr "R") (VStr "copy") VUndefined [])
     = Throw (api_error not_found_error).
Proof.
  intros W source.
  pose proof (proj1 (proj2 (proj2 (proj2
    (@fork_repository_steps W (VStr "P") (VStr "R") (VStr "copy") VUndefined []
       {| status := 200; data := source |} eq_refl eq_refl)))
    {| status := 200; data := VObj [("id", VStr "N"); ("name", VStr "copy")] |}
    (VStr "N") eq_refl eq_refl) not_found_error eq_refl) as H.
  split; [exact (f_equal snd H) | exact (f_equal fst H)].
Defined.

(** X17: [search_code] takes [file_path] and [top] but never uses them: two
    invocations that agree on [project_id], [repository_id] and [search_text]
    send the same request and give the same result, whatever their
    [file_path] and [top]. *)
Theorem search_code_ignores_path_and_top {W : World}
        (call1 call2 : tool_call) (tr : list event) :
  name call1 = "search_code" ->
  name call2 = "search_code" ->
  arg call1 "project_id" = arg call2 "project_id" ->
  arg call1 "repository_id" = arg call2 "repository_id" ->
  arg call1 "search_text" = arg call2 "search_text" ->
  call_tool call1 tr = call_tool call2 tr.
Proof.
  intros H1 H2 Hp Hr Hs. unfold call_tool. rewrite H1, H2.
  cbn -[missing arg respond invalid searchCode].
  rewrite Hp, Hr, Hs. destruct (_ || _); reflexivity.
Qed.

Lemma search_code_ignores_path_and_top_witness :
  let W := mock_world quiet_platform in
  @call_tool W {| name := "search_code";
                  arguments := Some [("project_id", VStr "P"); ("repository_id", VStr "R");
                                     ("search_text", VStr "TODO");
                                     ("file_path", VStr "/src"); ("top", num 5)] |} []
  = @call_tool W {| name := "search_code";
                    arguments := Some [("project_id", VStr "P");
                                       ("repository_id", VStr "R");
                                       ("search_text", VStr "TODO")] |} [].
Proof.
  intros W.
  apply (@search_code_ignores_path_and_top W); reflexivity.
Defined.

(** X18: [add_issue_comment] requires [repository_id] but the comment is
    posted to the work item of the project alone: two invocations with a
    truthy [repository_id] that agree on [project_id], [issue_id] and
    [comment] send the same request and give the same result. *)
Theorem add_issue_comment_ignores_the_repository {W : World}
        (call1 call2 : tool_call) (tr : list event) :
  name call1 = "add_issue_comment" ->
  name call2 = "add_issue_comment" ->
  truthy (arg call1 "repository_id") = true ->
  truthy (arg call2 "repository_id") = true ->
  arg call1 "project_id" = arg call2 "project_id" ->
  arg call1 "issue_id" = arg call2 "issue_id" ->
  arg call1 "comment" = arg call2 "comment" ->
  call_tool call1 tr = call_tool call2 tr.
Proof.
  intros H1 H2 Hr1 Hr2 Hp Hi Hc. unfold call_tool. rewrite H1, H2.
  cbn -[missing arg respond invalid addIssueComment].
  unfold missing at 2 6. rewrite Hr1, Hr2, Hp, Hi, Hc.
  cbn [negb]. rewrite !orb_false_r.
  destruct (_ || _); reflexivity.
Qed.

Lemma add_issue_comment_ignores_the_repository_witness :
  let W := mock_world quiet_platform in
  @call_tool W {| name := "add_issue_comment";
                  arguments := Some [("project_id", VStr "P"); ("repository_id", VStr "R");
                                     ("issue_id", VStr "42"); ("comment", VStr "done")] |} []
  = @call_tool W {| name := "add_issue_comment";
                    arguments := Some [("project_id", VStr "P");
                                       ("repository_id", VStr "another");
                                       ("issue_id", VStr "42");
                                       ("comment", VStr "done")] |} [].
Proof.
  intros W.
  apply (@add_issue_comment_ignores_the_repository W); reflexivity.
Defined.
